(** * A shallow embedding of the command-line chat client (chat.py, config.py)

    The client keeps one JSON transcript per conversation in a history
    directory, a pointer file naming the active conversation, and a markdown
    rendering of the transcript.  One invocation resolves the transcript to
    work on, sends the prompt to a completion API (batched or streamed),
    appends the exchange, saves, moves the pointer and renders.

    Conventions of the embedding.
    - Python [str] values are Rocq strings holding the UTF-8 text.
    - Python exceptions are values of [exn]; a call that may raise returns a
      [result]; a method that touches files is a function from the file
      store to a new file store and a [result].
    - [requests.post], [json.loads] and the clock are inputs of an
      invocation: they are library or environment code, not code of the
      repository.
    - The console ([print]) is not modelled. *)

From Stdlib Require Import ZArith List String Ascii Bool Lia DecimalString.
From stdpp Require Import base gmap strings.

Local Open Scope Z_scope.
Local Set Warnings "-register-all".

(* ================================================================== *)
(** ** Text primitives used by the client *)
(* ================================================================== *)

Module Text.

Definition chr (n : nat) : ascii := ascii_of_nat n.

(** The text of one byte sequence, given by its byte values. *)
Definition bytes (l : list nat) : string :=
  fold_right (fun n s => String (chr n) s) EmptyString l.

(** ["\n"] *)
Definition nl : string := bytes [10%nat].

Fixpoint drop (n : nat) (s : string) : string :=
  match n, s with
  | O, _ => s
  | S _, EmptyString => EmptyString
  | S n', String _ s' => drop n' s'
  end.

(** [s.startswith(p)] *)
Fixpoint startswith (p s : string) : bool :=
  match p, s with
  | EmptyString, _ => true
  | String _ _, EmptyString => false
  | String a p', String b s' => Ascii.eqb a b && startswith p' s'
  end.

(** [p in s] for two strings: [p] occurs in [s] as a substring. *)
Fixpoint occurs (p s : string) : bool :=
  startswith p s ||
  match s with
  | EmptyString => false
  | String _ s' => occurs p s'
  end.

(** [s.replace(c, by)] for a pattern [c] of one ASCII character. *)
Fixpoint replace (c : ascii) (by_ : string) (s : string) : string :=
  match s with
  | EmptyString => EmptyString
  | String a s' =>
      if Ascii.eqb a c then by_ +:+ replace c by_ s'
      else String a (replace c by_ s')
  end.

Definition is_lower (c : ascii) : bool :=
  (97 <=? nat_of_ascii c)%nat && (nat_of_ascii c <=? 122)%nat.
Definition is_upper (c : ascii) : bool :=
  (65 <=? nat_of_ascii c)%nat && (nat_of_ascii c <=? 90)%nat.
Definition upper (c : ascii) : ascii :=
  if is_lower c then chr (nat_of_ascii c - 32) else c.
Definition lower (c : ascii) : ascii :=
  if is_upper c then chr (nat_of_ascii c + 32) else c.

Fixpoint map_chars (f : ascii -> ascii) (s : string) : string :=
  match s with
  | EmptyString => EmptyString
  | String c s' => String (f c) (map_chars f s')
  end.

(** [s.capitalize()] on ASCII text: first character upper-cased, the
    others lower-cased. *)
Definition capitalize (s : string) : string :=
  match s with
  | EmptyString => EmptyString
  | String c s' => String (upper c) (map_chars lower s')
  end.

(** The characters [str.isspace] accepts, as UTF-8 byte sequences:
    U+0009..U+000D, U+001C..U+0020, U+0085, U+00A0, U+1680,
    U+2000..U+200A, U+2028, U+2029, U+202F, U+205F, U+3000. *)
Definition whitespace : list string :=
  map bytes
    [ [9]; [10]; [11]; [12]; [13]; [28]; [29]; [30]; [31]; [32];
      [194; 133]; [194; 160]; [225; 154; 128];
      [226; 128; 128]; [226; 128; 129]; [226; 128; 130]; [226; 128; 131];
      [226; 128; 132]; [226; 128; 133]; [226; 128; 134]; [226; 128; 135];
      [226; 128; 136]; [226; 128; 137]; [226; 128; 138];
      [226; 128; 168]; [226; 128; 169]; [226; 128; 175];
      [226; 129; 159]; [227; 128; 128] ]%nat.

(** The first pattern of [pats] that [s] starts with. *)
Fixpoint leading (pats : list string) (s : string) : option string :=
  match pats with
  | [] => None
  | p :: pats' => if startswith p s then Some p else leading pats' s
  end.

Fixpoint strip_leading (fuel : nat) (pats : list string) (s : string) : string :=
  match fuel with
  | O => s
  | S fuel' =>
      match leading pats s with
      | Some p =>
          if (String.length p =? 0)%nat then s
          else strip_leading fuel' pats (drop (String.length p) s)
      | None => s
      end
  end.

Definition lstrip (s : string) : string :=
  strip_leading (String.length s) whitespace s.

Definition rstrip (s : string) : string :=
  String.rev
    (strip_leading (String.length s) (map String.rev whitespace) (String.rev s)).

(** [s.strip()] *)
Definition strip (s : string) : string := rstrip (lstrip s).

(** [str(n)] for an [int]. *)
Definition of_Z (n : Z) : string := NilZero.string_of_int (Z.to_int n).

(** The first character of a text: its first byte and the continuation
    bytes (of the form 10xxxxxx) that follow it. *)
Definition is_continuation (c : ascii) : bool :=
  (128 <=? nat_of_ascii c)%nat && (nat_of_ascii c <? 192)%nat.

Fixpoint take_while (f : ascii -> bool) (s : string) : string :=
  match s with
  | EmptyString => EmptyString
  | String c s' => if f c then String c (take_while f s') else EmptyString
  end.

Definition first_char (s : string) : option string :=
  match s with
  | EmptyString => None
  | String c s' => Some (String c (take_while is_continuation s'))
  end.

(** Python truth value of a string: only the empty one is false. *)
Definition truthy (s : string) : bool :=
  match s with EmptyString => false | _ => true end.

(** The value of an optional string when it is a true one ([None] and
    the empty string are the false ones). *)
Definition nonempty (o : option string) : option string :=
  match o with
  | Some s => if truthy s then Some s else None
  | None => None
  end.

End Text.

(* ================================================================== *)
(** ** Python values: exceptions, JSON documents, dynamic operations *)
(* ================================================================== *)

(** The exceptions the client can meet.  [Unsupported] marks a run on which
    the embedding stops although Python goes on (see [as_content]); the
    statements about failing runs leave it out. *)
Inductive exn : Type :=
  | ValueError (msg : string)
  | FileNotFoundError (msg : string)
  | RuntimeError (msg : string)
  | RequestException (msg : string)
  | JSONDecodeError
  | KeyError (key : string)
  | IndexError
  | TypeError
  | AttributeError
  | Unsupported.

Inductive result (A : Type) : Type :=
  | Ok (a : A)
  | Raise (e : exn).
Arguments Ok {A} a.
Arguments Raise {A} e.

(** Sequencing of calls that may raise, with stdpp's [x ← e; k] notation. *)
#[global] Instance result_ret : MRet result := fun A a => Ok a.
#[global] Instance result_bind : MBind result := fun A B k r =>
  match r with
  | Ok a => k a
  | Raise e => Raise e
  end.
#[global] Instance result_fmap : FMap result := fun A B f r =>
  match r with
  | Ok a => Ok (f a)
  | Raise e => Raise e
  end.

(** What [json.loads] returns: [None], booleans, integers, strings, lists
    and dictionaries with string keys (in document order).  Numbers with a
    fraction or an exponent are not represented. *)
Inductive json : Type :=
  | JNull
  | JBool (b : bool)
  | JInt (n : Z)
  | JStr (s : string)
  | JArr (l : list json)
  | JObj (kv : list (string * json)).

Module Py.

(** [bool(v)] *)
Definition truthy (v : json) : bool :=
  match v with
  | JNull => false
  | JBool b => b
  | JInt n => negb (n =? 0)
  | JStr s => Text.truthy s
  | JArr l => match l with [] => false | _ => true end
  | JObj kv => match kv with [] => false | _ => true end
  end.

(** Dictionary lookup by key. *)
Fixpoint assoc (k : string) (kv : list (string * json)) : option json :=
  match kv with
  | [] => None
  | (k', v) :: kv' => if String.eqb k k' then Some v else assoc k kv'
  end.

Definition is_str (k : string) (v : json) : bool :=
  match v with JStr s => String.eqb k s | _ => false end.

(** [k in v] for a string [k]: key of a dictionary, element of a list,
    substring of a string; other values are not iterable. *)
Definition contains (k : string) (v : json) : result bool :=
  match v with
  | JObj kv => Ok (match assoc k kv with Some _ => true | None => false end)
  | JArr l => Ok (existsb (is_str k) l)
  | JStr s => Ok (Text.occurs k s)
  | JNull | JBool _ | JInt _ => Raise TypeError
  end.

(** [v[k]] for a string [k]. *)
Definition getitem (v : json) (k : string) : result json :=
  match v with
  | JObj kv => match assoc k kv with Some x => Ok x | None => Raise (KeyError k) end
  | _ => Raise TypeError
  end.

(** [v[0]].  A dictionary read from JSON has string keys only, so the
    key [0] is never present. *)
Definition getitem0 (v : json) : result json :=
  match v with
  | JArr l => match l with x :: _ => Ok x | [] => Raise IndexError end
  | JStr s => match Text.first_char s with Some c => Ok (JStr c) | None => Raise IndexError end
  | JObj _ => Raise (KeyError "0")
  | JNull | JBool _ | JInt _ => Raise TypeError
  end.

(** [v.get(k, default)]: only dictionaries have the method. *)
Definition get (v : json) (k : string) (default : json) : result json :=
  match v with
  | JObj kv => Ok (match assoc k kv with Some x => x | None => default end)
  | _ => Raise AttributeError
  end.

(** [s += v] for a string [s]. *)
Definition str_iadd (s : string) (v : json) : result string :=
  match v with
  | JStr s' => Ok (s +:+ s')
  | _ => Raise TypeError
  end.

(** [n += v] for an integer [n]; [True] and [False] count as 1 and 0. *)
Definition int_iadd (n : Z) (v : json) : result Z :=
  match v with
  | JInt m => Ok (n + m)
  | JBool b => Ok (n + (if b then 1 else 0))
  | _ => Raise TypeError
  end.

End Py.

(* ================================================================== *)
(** ** Configuration (config.py) *)
(* ================================================================== *)

Definition MODEL : string := "codestral-latest".
Definition MAX_TOKENS : Z := 8192.

(** [ACTIVE_CHAT_FILE = HISTORY_DIR / "active_chat.json"]: the pointer file
    is the file of that name inside the history directory. *)
Definition ACTIVE_CHAT_FILE : string := "active_chat.json".

(* ================================================================== *)
(** ** The clock: [datetime.now().isoformat()] *)
(* ================================================================== *)

Record datetime : Type := {
  year : nat; month : nat; day : nat;
  hour : nat; minute : nat; second : nat; microsecond : nat
}.

Definition digit (n : nat) : ascii := Text.chr (48 + n mod 10).

(** The [k] low-order decimal digits of [n], i.e. [n] zero-padded to width
    [k] for the values a [datetime] field takes. *)
Fixpoint zpad (k n : nat) : string :=
  match k with
  | O => EmptyString
  | S k' => zpad k' (n / 10) +:+ String (digit n) EmptyString
  end.

(** [YYYY-MM-DDTHH:MM:SS], followed by [.ffffff] when the microsecond is
    not zero. *)
Definition isoformat (d : datetime) : string :=
  zpad 4 (year d) +:+ "-" +:+ zpad 2 (month d) +:+ "-" +:+ zpad 2 (day d) +:+ "T"
  +:+ zpad 2 (hour d) +:+ ":" +:+ zpad 2 (minute d) +:+ ":" +:+ zpad 2 (second d)
  +:+ (if (microsecond d =? 0)%nat then "" else "." +:+ zpad 6 (microsecond d)).

(* ================================================================== *)
(** ** Data model *)
(* ================================================================== *)

(** The roles of the messages the client writes; [role_str] is the string
    stored under ["role"]. *)
Inductive Role : Type := user | assistant.

Definition role_str (r : Role) : string :=
  match r with user => "user" | assistant => "assistant" end.

(** A message: the dictionary with the keys ["role"] and ["content"]. *)
Record Message : Type := { role : Role; content : string }.

(** The dictionary under ["usage"]: three integer counters. *)
Record Usage : Type := {
  prompt_tokens : Z; completion_tokens : Z; total_tokens : Z
}.

(** The dictionary of [create_chat_history], key by key. *)
Record Transcript : Type := {
  model : string;
  messages : list Message;
  usage : Usage;
  created_at : string;
  last_updated_at : string
}.

(** What [json.load] returns for a file of the history directory: a
    transcript, or a dictionary with at most the key [active_chat] ([None]
    when the key is absent or null).  JSON documents of another shape are
    not represented. *)
Inductive document : Type :=
  | DTranscript (t : Transcript)
  | DPointer (active_chat : option string).

(** A file of the history directory: a JSON document, or text that
    [json.load] rejects. *)
Inductive file : Type :=
  | FJson (d : document)
  | FGarbage.

(** The files the client reads and writes.  [history] maps a file name to
    the file of that name in HISTORY_DIR, the pointer file included;
    [input_file] is the text of INPUT_FILE as [f.read()] returns it;
    [output_file] the text of OUTPUT_FILE. *)
Record FS : Type := {
  history : gmap string file;
  input_file : option string;
  output_file : option string
}.

(** The request body of [send_message]. *)
Record Payload : Type := {
  p_model : string;
  p_messages : list Message;
  p_max_tokens : Z;
  p_stream : bool
}.

(** The two ways the client reads a [requests] response: [response.json()]
    and [response.iter_lines()].  The iterator yields [resp_lines] and then
    ends, or raises a [RequestException] when [resp_broken] carries one (the
    connection broke).  Lines are given as decoded text. *)
Record Response : Type := {
  resp_json : result json;
  resp_lines : list string;
  resp_broken : option string
}.

(** [requests.post] followed by [raise_for_status]: a connection error or a
    non-success status raises a [RequestException]. *)
Inductive HttpResult : Type :=
  | RequestFailed (e : string)
  | Responded (r : Response).

(** What one invocation receives from outside the program. *)
Record Env : Type := {
  post : Payload -> HttpResult;
  now_create : datetime;   (* the clock read by create_chat_history *)
  now_update : datetime    (* the clock read when last_updated_at is set *)
}.

(* ================================================================== *)
(** ** Methods that touch files: state passing over [FS] *)
(* ================================================================== *)

Definition M (A : Type) : Type := FS -> FS * result A.

#[global] Instance M_ret : MRet M := fun A a fs => (fs, Ok a).
#[global] Instance M_bind : MBind M := fun A B k m fs =>
  match m fs with
  | (fs', Ok a) => k a fs'
  | (fs', Raise e) => (fs', Raise e)
  end.

Definition raise {A} (e : exn) : M A := fun fs => (fs, Raise e).
Definition lift {A} (r : result A) : M A := fun fs => (fs, r).

Definition write_history (name : string) (f : file) : M unit := fun fs =>
  ({| history := <[name := f]> (history fs);
      input_file := input_file fs;
      output_file := output_file fs |}, Ok tt).

Definition write_output (text : string) : M unit := fun fs =>
  ({| history := history fs;
      input_file := input_file fs;
      output_file := Some text |}, Ok tt).

(* ================================================================== *)
(** ** class Chat *)
(* ================================================================== *)

Section Chat.

(** [STREAMING] is imported from config.py, which does not define it. *)
Variable STREAMING : bool.

(** [json.loads] on the payload of a stream line; [None] stands for
    [json.JSONDecodeError]. *)
Variable json_loads : string -> option json.

(** [create_chat_history], at clock reading [now]. *)
Definition create_chat_history (now : datetime) : Transcript :=
  {| model := MODEL;
     messages := [];
     usage := {| prompt_tokens := 0; completion_tokens := 0; total_tokens := 0 |};
     created_at := isoformat now;
     last_updated_at := isoformat now |}.

(** [get_chat_filename] *)
Definition get_chat_filename (created_at : string) : string :=
  let timestamp := Text.replace "." "-" (Text.replace ":" "" created_at) in
  timestamp +:+ ".json".

(** [save_chat_history] *)
Definition save_chat_history (chat_data : Transcript) (filename : option string)
  : M string :=
  let filename :=
    match filename with
    | None => get_chat_filename (created_at chat_data)
    | Some f => f
    end in
  _ ← write_history filename (FJson (DTranscript chat_data));
  mret filename.

(** [load_chat_history] *)
Definition load_chat_history (filename : string) : M document := fun fs =>
  match history fs !! filename with
  | None =>
      (fs, Raise (FileNotFoundError ("Chat history file not found: " +:+ filename)))
  | Some FGarbage => (fs, Raise JSONDecodeError)
  | Some (FJson d) => (fs, Ok d)
  end.

(** [get_active_chat]: [data.get("active_chat")] *)
Definition get_active_chat : M (option string) := fun fs =>
  match history fs !! ACTIVE_CHAT_FILE with
  | None => (fs, Ok None)
  | Some FGarbage => (fs, Raise JSONDecodeError)
  | Some (FJson (DPointer a)) => (fs, Ok a)
  | Some (FJson (DTranscript _)) => (fs, Ok None)
  end.

(** [set_active_chat] *)
Definition set_active_chat (filename : string) : M unit :=
  write_history ACTIVE_CHAT_FILE (FJson (DPointer (Some filename))).

(* ---------------------------------------------------------------- *)
(** *** [_handle_stream] *)

Definition zero_usage : json :=
  JObj [("prompt_tokens", JInt 0); ("completion_tokens", JInt 0);
        ("total_tokens", JInt 0)].

(** Loop state: [full_content] and [usage]. *)
Definition stream_state : Type := string * json.

(** How one iteration of the loop over the lines ends. *)
Inductive flow : Type :=
  | Next (st : stream_state)
  | Break (st : stream_state).

(** The condition [k in chunk and chunk[k]]. *)
Definition present (k : string) (chunk : json) : result bool :=
  has ← Py.contains k chunk;
  if has : bool then Py.truthy <$> Py.getitem chunk k else Ok false.

(** [if "choices" in chunk and chunk["choices"]: ...]: the content of the
    first choice's delta, when it is a true value, is appended. *)
Definition append_content (chunk : json) (full_content : string) : result string :=
  with_choices ← present "choices" chunk;
  if with_choices : bool then
    choices ← Py.getitem chunk "choices";
    first ← Py.getitem0 choices;
    delta ← Py.get first "delta" (JObj []);
    content ← Py.get delta "content" (JStr "");
    if Py.truthy content
    then Py.str_iadd full_content content
    else Ok full_content
  else Ok full_content.

(** [if "usage" in chunk and chunk["usage"]: usage = chunk["usage"]] *)
Definition capture_usage (chunk : json) (usage : json) : result json :=
  with_usage ← present "usage" chunk;
  if with_usage : bool then Py.getitem chunk "usage" else Ok usage.

(** The body of the [try] for a chunk that parsed. *)
Definition handle_chunk (chunk : json) (st : stream_state) : result stream_state :=
  let '(full_content, usage) := st in
  full_content ← append_content chunk full_content;
  usage ← capture_usage chunk usage;
  Ok (full_content, usage).

(** The body of the [for] loop for one line. *)
Definition handle_line (line : string) (st : stream_state) : result flow :=
  if Text.truthy line then
    if Text.startswith "data: " line then
      let data := Text.drop 6 line in
      if String.eqb data "[DONE]" then Ok (Break st)
      else
        match json_loads data with
        | None => Ok (Next st)                        (* except: continue *)
        | Some chunk => Next <$> handle_chunk chunk st
        end
    else Ok (Next st)
  else Ok (Next st).

(** The [for] loop over [response.iter_lines()]. *)
Fixpoint stream_loop (lines : list string) (broken : option string)
    (st : stream_state) : result stream_state :=
  match lines with
  | [] =>
      match broken with
      | None => Ok st
      | Some e => Raise (RequestException e)
      end
  | line :: lines' =>
      match handle_line line st with
      | Ok (Next st') => stream_loop lines' broken st'
      | Ok (Break st') => Ok st'
      | Raise e => Raise e
      end
  end.

Definition handle_stream (response : Response) : result json :=
  '(full_content, usage) ←
    stream_loop (resp_lines response) (resp_broken response) ("", zero_usage);
  Ok (JObj [("choices", JArr [JObj [("message", JObj [("content", JStr full_content)])]]);
            ("usage", usage)]).

(* ---------------------------------------------------------------- *)
(** *** [send_message] *)

(** [except requests.exceptions.RequestException as e] *)
Definition api_request_failed {A} (r : result A) : result A :=
  match r with
  | Raise (RequestException e) => Raise (RuntimeError ("API request failed: " +:+ e))
  | _ => r
  end.

Definition send_message (E : Env) (messages : list Message) (stream : bool)
  : result json :=
  let payload :=
    {| p_model := MODEL; p_messages := messages;
       p_max_tokens := MAX_TOKENS; p_stream := stream |} in
  api_request_failed
    match post E payload with
    | RequestFailed e => Raise (RequestException e)
    | Responded response =>
        if stream then handle_stream response else resp_json response
    end.

(* ---------------------------------------------------------------- *)
(** *** [update_output_md] *)

Definition nl := Text.nl.

(** One iteration of the loop over the messages: the text written to the
    open file [f] grows by one section. *)
Definition write_message (f : string) (msg : Message) : string :=
  let role := Text.capitalize (role_str (role msg)) in
  let content := content msg in
  f +:+ "## " +:+ role +:+ nl +:+ nl +:+ content +:+ nl +:+ nl.

(** The text the [with] block of [update_output_md] writes for a
    transcript; [f] is the text written so far. *)
Definition render (t : Transcript) : string :=
  let f := "" in
  let f := f +:+ "# Chat History" +:+ nl +:+ nl in
  let f := f +:+ "**Created:** " +:+ created_at t +:+ nl +:+ nl in
  let f := f +:+ "**Last Updated:** " +:+ last_updated_at t +:+ nl +:+ nl in
  let f := f +:+ "**Model:** " +:+ model t +:+ nl +:+ nl in
  let f := f +:+ "---" +:+ nl +:+ nl in
  let f := fold_left write_message (messages t) f in
  let usage := usage t in
  let f := f +:+ "---" +:+ nl +:+ nl in
  let f := f +:+ "**Usage Statistics:**" +:+ nl +:+ nl in
  let f := f +:+ "- Prompt Tokens: " +:+ Text.of_Z (prompt_tokens usage) +:+ nl in
  let f := f +:+ "- Completion Tokens: " +:+ Text.of_Z (completion_tokens usage) +:+ nl in
  let f := f +:+ "- Total Tokens: " +:+ Text.of_Z (total_tokens usage) +:+ nl in
  f.

(** [update_output_md].  For a dictionary without the transcript keys the
    file is opened and the title written before ['created_at'] is missed. *)
Definition update_output_md (chat_data : document) : M unit :=
  match chat_data with
  | DTranscript t => write_output (render t)
  | DPointer _ =>
      _ ← write_output ("# Chat History" +:+ nl +:+ nl);
      raise (KeyError "created_at")
  end.

(* ---------------------------------------------------------------- *)
(** *** [chat] *)

(** [try: m  except FileNotFoundError: handler] *)
Definition except_FileNotFoundError {A} (m handler : M A) : M A := fun fs =>
  match m fs with
  | (fs', Raise (FileNotFoundError _)) => handler fs'
  | r => r
  end.

(** Lines 189-208: which transcript to use, and its file name when it
    has one. *)
Definition resolve_session (E : Env) (new_chat : bool)
  : M (document * option string) :=
  let fresh : M (document * option string) :=
    mret (DTranscript (create_chat_history (now_create E)), None) in
  if new_chat then fresh
  else
    active_filename ← get_active_chat;
    match Text.nonempty active_filename with
    | Some active_filename =>
        except_FileNotFoundError
          (chat_data ← load_chat_history active_filename;
           mret (chat_data, Some active_filename))
          fresh
    | None => fresh
    end.

(** Lines 210-216: the prompt, from the caller or from the input file. *)
Definition acquire_prompt (prompt : option string) : M string := fun fs =>
  let prompt :=
    match Text.nonempty prompt, input_file fs with
    | None, Some text => Some (Text.strip text)
    | _, _ => prompt
    end in
  match Text.nonempty prompt with
  | Some prompt => (fs, Ok prompt)
  | None =>
      (fs, Raise (ValueError
         "No prompt provided. Either pass a prompt or create input.md file."))
  end.

(** The content of a message of the transcript is text; a reply whose
    content is another JSON value is outside the embedding. *)
Definition as_content (v : json) : result string :=
  match v with
  | JStr s => Ok s
  | _ => Raise Unsupported
  end.

(** [response["choices"][0]["message"]["content"]] *)
Definition assistant_content (response : json) : result string :=
  choices ← Py.getitem response "choices";
  first ← Py.getitem0 choices;
  message ← Py.getitem first "message";
  content ← Py.getitem message "content";
  as_content content.

(** Lines 238-241: the cumulative usage after adding [response_usage]. *)
Definition add_usage (u : Usage) (response_usage : json) : result Usage :=
  v ← Py.getitem response_usage "prompt_tokens";
  p ← Py.int_iadd (prompt_tokens u) v;
  v ← Py.getitem response_usage "completion_tokens";
  c ← Py.int_iadd (completion_tokens u) v;
  v ← Py.getitem response_usage "total_tokens";
  t ← Py.int_iadd (total_tokens u) v;
  Ok {| prompt_tokens := p; completion_tokens := c; total_tokens := t |}.

Definition chat (E : Env) (prompt : option string) (new_chat : bool)
    (load_file : option string) : M unit :=
  match Text.nonempty load_file with
  | Some load_file =>
      chat_data ← load_chat_history load_file;
      let filename := load_file in
      _ ← set_active_chat filename;
      update_output_md chat_data
  | None =>
      '(chat_data, filename) ← resolve_session E new_chat;
      prompt ← acquire_prompt prompt;
      match chat_data with
      | DPointer _ => raise (KeyError "messages")
      | DTranscript t =>
          let messages := messages t ++ [ {| role := user; content := prompt |} ] in
          response ← lift (send_message E messages STREAMING);
          assistant_message ← lift (assistant_content response);
          let messages :=
            messages ++ [ {| role := assistant; content := assistant_message |} ] in
          response_usage ← lift (Py.getitem response "usage");
          usage ← lift (add_usage (usage t) response_usage);
          let chat_data :=
            {| model := model t;
               messages := messages;
               usage := usage;
               created_at := created_at t;
               last_updated_at := isoformat (now_update E) |} in
          filename ← save_chat_history chat_data filename;
          _ ← set_active_chat filename;
          update_output_md (DTranscript chat_data)
      end
  end.

End Chat.

(* ================================================================== *)
(** ** Vocabulary of the statements *)
(* ================================================================== *)

(** The usage record of the API as a JSON object. *)
Definition usage_json (u : Usage) : json :=
  JObj [("prompt_tokens", JInt (prompt_tokens u));
        ("completion_tokens", JInt (completion_tokens u));
        ("total_tokens", JInt (total_tokens u))].

Definition usage_add (a b : Usage) : Usage :=
  {| prompt_tokens := prompt_tokens a + prompt_tokens b;
     completion_tokens := completion_tokens a + completion_tokens b;
     total_tokens := total_tokens a + total_tokens b |}.

Definition no_usage : Usage :=
  {| prompt_tokens := 0; completion_tokens := 0; total_tokens := 0 |}.

(** Sum of a list of integers. *)
Definition total (l : list Z) : Z := fold_right Z.add 0 l.

(** The shape both exchange modes hand to [chat]. *)
Definition normalized (content : string) (usage : json) : json :=
  JObj [("choices", JArr [JObj [("message", JObj [("content", JStr content)])]]);
        ("usage", usage)].

(** The transcript after one exchange: the user message and the reply
    appended in that order, the usage replaced, the update time set. *)
Definition extended (t : Transcript) (prompt reply : string) (u : Usage)
    (now : datetime) : Transcript :=
  {| model := model t;
     messages := messages t ++ [ {| role := user; content := prompt |};
                                 {| role := assistant; content := reply |} ];
     usage := u;
     created_at := created_at t;
     last_updated_at := isoformat now |}.

(** The name a transcript is saved under. *)
Definition saved_as (t : Transcript) (filename : option string) : string :=
  match filename with
  | None => get_chat_filename (created_at t)
  | Some f => f
  end.

(** The file store after [t] was saved under [name], the pointer moved to
    [name] and the view rendered. *)
Definition persisted (fs : FS) (name : string) (t : Transcript) : FS :=
  {| history :=
       <[ACTIVE_CHAT_FILE := FJson (DPointer (Some name))]>
         (<[name := FJson (DTranscript t)]> (history fs));
     input_file := input_file fs;
     output_file := Some (render t) |}.

(** The file store after a transcript [t] named [name] was loaded. *)
Definition switched (fs : FS) (name : string) (t : Transcript) : FS :=
  {| history := <[ACTIVE_CHAT_FILE := FJson (DPointer (Some name))]> (history fs);
     input_file := input_file fs;
     output_file := Some (render t) |}.

(** The pointer file, when there is one, is not a transcript.  Every store
    the client produces is of this kind ([chat_pointer_shape]). *)
Definition pointer_shape (fs : FS) : Prop :=
  forall t, history fs !! ACTIVE_CHAT_FILE <> Some (FJson (DTranscript t)).

(** [c] occurs in [s]. *)
Fixpoint has_char (c : ascii) (s : string) : bool :=
  match s with
  | EmptyString => false
  | String a s' => Ascii.eqb a c || has_char c s'
  end.

(** The pointer file gives no transcript to continue: it is missing, or
    names no active chat, or names a file that does not exist. *)
Definition stale_pointer (fs : FS) : Prop :=
  history fs !! ACTIVE_CHAT_FILE = None
  \/ (exists a, history fs !! ACTIVE_CHAT_FILE = Some (FJson (DPointer a))
                /\ Text.nonempty a = None)
  \/ (exists f, history fs !! ACTIVE_CHAT_FILE = Some (FJson (DPointer (Some f)))
                /\ history fs !! f = None).

(** The request [send_message] posts for a message history. *)
Definition payload_of (messages : list Message) (stream : bool) : Payload :=
  {| p_model := MODEL; p_messages := messages;
     p_max_tokens := MAX_TOKENS; p_stream := stream |}.

(** What one exchange yields for transcript [t] and prompt [p] (lines
    218-241 of [chat]): the reply and the new cumulative usage. *)
Definition exchange (STREAMING : bool) (json_loads : string -> option json)
    (E : Env) (t : Transcript) (p : string) : result (string * Usage) :=
  response ← send_message json_loads E
               (messages t ++ [ {| role := user; content := p |} ]) STREAMING;
  reply ← assistant_content response;
  response_usage ← Py.getitem response "usage";
  u ← add_usage (usage t) response_usage;
  Ok (reply, u).

(** A text made of whitespace characters only. *)
Inductive blank : string -> Prop :=
  | blank_nil : blank ""
  | blank_cons (w s : string) : In w Text.whitespace -> blank s -> blank (w +:+ s).

(** *** Streams, in the words of the specification

    A stream is a sequence of chunks, each carrying a content fragment
    (possibly none) and optionally a usage object, ended by a sentinel. *)

(** The content a choice of a chunk carries: the string under
    [delta.content]; nothing when [delta] or [content] is absent or
    [content] is null.  [None] when the choice has another shape. *)
Definition delta_text (choice : json) : option string :=
  match choice with
  | JObj kv =>
      match Py.assoc "delta" kv with
      | None => Some ""
      | Some (JObj d) =>
          match Py.assoc "content" d with
          | None | Some JNull => Some ""
          | Some (JStr s) => Some s
          | Some _ => None
          end
      | Some _ => None
      end
  | _ => None
  end.

(** The content fragment of a chunk: that of its first choice, nothing
    when it has no choice.  [None] when the chunk is not well formed. *)
Definition chunk_fragment (chunk : json) : option string :=
  match chunk with
  | JObj kv =>
      match Py.assoc "choices" kv with
      | None | Some JNull | Some (JArr []) => Some ""
      | Some (JArr (choice :: _)) => delta_text choice
      | Some _ => None
      end
  | _ => None
  end.

Definition well_formed (chunk : json) : Prop := is_Some (chunk_fragment chunk).

(** The usage object of a chunk, when it has a non-empty one. *)
Definition chunk_usage (chunk : json) : option json :=
  match chunk with
  | JObj kv =>
      match Py.assoc "usage" kv with
      | Some u => if Py.truthy u then Some u else None
      | None => None
      end
  | _ => None
  end.

(** The chunks of a stream, in arrival order: the payloads of the
    [data: ] lines that parse, up to the [[DONE]] sentinel. *)
Fixpoint received (json_loads : string -> option json) (lines : list string)
  : list json :=
  match lines with
  | [] => []
  | line :: lines' =>
      if Text.startswith "data: " line then
        if String.eqb (Text.drop 6 line) "[DONE]" then []
        else
          match json_loads (Text.drop 6 line) with
          | Some chunk => chunk :: received json_loads lines'
          | None => received json_loads lines'
          end
      else received json_loads lines'
  end.

(** The fragments of a sequence of chunks, concatenated in order. *)
Fixpoint fragments (chunks : list json) : string :=
  match chunks with
  | [] => ""
  | chunk :: chunks' => default "" (chunk_fragment chunk) +:+ fragments chunks'
  end.

(** The usage object of the last chunk that has one. *)
Definition reported_usage (chunks : list json) : option json :=
  fold_left (fun o chunk =>
               match chunk_usage chunk with
               | Some u => Some u
               | None => o
               end) chunks None.

(** *** The rendered view, in the words of the specification *)

Definition label (r : Role) : string :=
  match r with user => "User" | assistant => "Assistant" end.

(** Header: creation and update timestamps and model name. *)
Definition view_header (t : Transcript) : string :=
  "# Chat History" +:+ nl +:+ nl +:+
  "**Created:** " +:+ created_at t +:+ nl +:+ nl +:+
  "**Last Updated:** " +:+ last_updated_at t +:+ nl +:+ nl +:+
  "**Model:** " +:+ model t +:+ nl +:+ nl +:+
  "---" +:+ nl +:+ nl.

(** One section per message: the role as a label, the content verbatim. *)
Definition view_section (msg : Message) : string :=
  "## " +:+ label (role msg) +:+ nl +:+ nl +:+ content msg +:+ nl +:+ nl.

Fixpoint view_sections (msgs : list Message) : string :=
  match msgs with
  | [] => ""
  | msg :: msgs' => view_section msg +:+ view_sections msgs'
  end.

(** The three cumulative counters. *)
Definition view_usage (u : Usage) : string :=
  "---" +:+ nl +:+ nl +:+
  "**Usage Statistics:**" +:+ nl +:+ nl +:+
  "- Prompt Tokens: " +:+ Text.of_Z (prompt_tokens u) +:+ nl +:+
  "- Completion Tokens: " +:+ Text.of_Z (completion_tokens u) +:+ nl +:+
  "- Total Tokens: " +:+ Text.of_Z (total_tokens u) +:+ nl.

(** *** A session: one invocation after the other *)

(** The three counters of a usage object of the API. *)
Definition usage_of (response_usage : json) : result Usage :=
  add_usage no_usage response_usage.

(** One turn of a conversation: what the invocation receives, the prompt
    the caller passes, and the reply and usage the API answers with. *)
Record Turn : Type := {
  turn_env : Env;
  turn_prompt : string;
  turn_reply : string;
  turn_usage : Usage
}.

(** The two messages a turn adds. *)
Definition turn_messages (T : Turn) : list Message :=
  [ {| role := user; content := turn_prompt T |};
    {| role := assistant; content := turn_reply T |} ].

Section Sessions.

Variable STREAMING : bool.
Variable json_loads : string -> option json.

(** One run of the program with the prompt on the command line, with or
    without [--new]. *)
Definition invoke (new_chat : bool) (T : Turn) : M unit :=
  chat STREAMING json_loads (turn_env T) (Some (turn_prompt T)) new_chat None.

(** Runs without [--new], one after the other, as long as they succeed. *)
Fixpoint continue_session (turns : list Turn) : M unit :=
  match turns with
  | [] => mret tt
  | T :: turns' => _ ← invoke false T; continue_session turns'
  end.

(** A session: a run with [--new], then runs without. *)
Definition session (first : Turn) (rest : list Turn) : M unit :=
  _ ← invoke true first; continue_session rest.

(** The exchange of turn [T] succeeds after the messages [prev]: the prompt
    is not empty and the API answers the history [prev] plus the prompt
    with the reply and the usage of the turn. *)
Definition answers (prev : list Message) (T : Turn) : Prop :=
  Text.truthy (turn_prompt T) = true
  /\ exists response response_usage,
       send_message json_loads (turn_env T)
         (prev ++ [ {| role := user; content := turn_prompt T |} ]) STREAMING
       = Ok response
       /\ assistant_content response = Ok (turn_reply T)
       /\ Py.getitem response "usage" = Ok response_usage
       /\ usage_of response_usage = Ok (turn_usage T).

Fixpoint answered (prev : list Message) (turns : list Turn) : Prop :=
  match turns with
  | [] => True
  | T :: turns' => answers prev T /\ answered (prev ++ turn_messages T) turns'
  end.

End Sessions.

(** The store holds transcript [t] under [name] and the pointer names it. *)
Definition active_session (fs : FS) (name : string) (t : Transcript) : Prop :=
  history fs !! name = Some (FJson (DTranscript t))
  /\ history fs !! ACTIVE_CHAT_FILE = Some (FJson (DPointer (Some name)))
  /\ Text.truthy name = true.

(** *** Sample data: the worked example of the specification *)

Module Sample.

Definition created : datetime :=
  {| year := 2026; month := 1; day := 22;
     hour := 1; minute := 7; second := 57; microsecond := 0 |}.

Definition updated : datetime :=
  {| year := 2026; month := 1; day := 22;
     hour := 1; minute := 8; second := 3; microsecond := 250 |}.

Definition usage538 : Usage :=
  {| prompt_tokens := 5; completion_tokens := 3; total_tokens := 8 |}.

(** A batched response body: content "hi there", usage {5, 3, 8}. *)
Definition body : json :=
  JObj [("id", JStr "cmpl-1");
        ("choices",
         JArr [JObj [("index", JInt 0);
                     ("message", JObj [("role", JStr "assistant");
                                       ("content", JStr "hi there")])]]);
        ("usage", usage_json usage538)].

(** A quoted JSON string. *)
Definition quoted (s : string) : string :=
  Text.bytes [34%nat] +:+ s +:+ Text.bytes [34%nat].

(** The text of a chunk with one content fragment. *)
Definition delta_text_of (fragment : string) : string :=
  "{" +:+ quoted "choices" +:+ ":[{" +:+ quoted "delta" +:+ ":{"
  +:+ quoted "content" +:+ ":" +:+ quoted fragment +:+ "}}]}".

Definition delta_chunk (fragment : string) : json :=
  JObj [("choices", JArr [JObj [("delta", JObj [("content", JStr fragment)])]])].

(** The text of the closing chunk: no choice, usage {5, 3, 8}. *)
Definition usage_text : string :=
  "{" +:+ quoted "choices" +:+ ":[]," +:+ quoted "usage" +:+ ":{"
  +:+ quoted "prompt_tokens" +:+ ":5," +:+ quoted "completion_tokens" +:+ ":3,"
  +:+ quoted "total_tokens" +:+ ":8}}".

Definition usage_chunk : json :=
  JObj [("choices", JArr []); ("usage", usage_json usage538)].

(** [json.loads] on the payloads of the sample stream; any other text is
    taken as malformed. *)
Definition loads (data : string) : option json :=
  if String.eqb data (delta_text_of "hi ") then Some (delta_chunk "hi ")
  else if String.eqb data (delta_text_of "there") then Some (delta_chunk "there")
  else if String.eqb data usage_text then Some usage_chunk
  else None.

(** A stream: two fragments around an empty line, a malformed chunk and a
    comment line, the closing chunk, the sentinel, and a line after it. *)
Definition lines : list string :=
  [ "data: " +:+ delta_text_of "hi ";
    "";
    "data: {bad";
    ": keep-alive";
    "data: " +:+ delta_text_of "there";
    "data: " +:+ usage_text;
    "data: [DONE]";
    "data: " +:+ delta_text_of "late" ].

Definition response : Response :=
  {| resp_json := Ok body; resp_lines := lines; resp_broken := None |}.

(** A response whose stream carries no usage object. *)
Definition response_without_usage : Response :=
  {| resp_json := Ok body;
     resp_lines := [ "data: " +:+ delta_text_of "hi "; "data: [DONE]" ];
     resp_broken := None |}.

(** An API that answers every request with [response]. *)
Definition answering : Env :=
  {| post := fun _ => Responded response;
     now_create := created; now_update := updated |}.

(** An API that is down. *)
Definition failing : Env :=
  {| post := fun _ => RequestFailed "503 Server Error";
     now_create := created; now_update := updated |}.

Definition empty : FS :=
  {| history := ∅; input_file := None; output_file := None |}.

Definition blank_input : FS :=
  {| history := ∅; input_file := Some (" " +:+ nl); output_file := None |}.

Definition hello : Transcript :=
  {| model := MODEL;
     messages := [ {| role := user; content := "hello" |};
                   {| role := assistant; content := "hi there" |} ];
     usage := usage538;
     created_at := "2026-01-22T01:07:57";
     last_updated_at := "2026-01-22T01:08:03.000250" |}.

(** A store with one saved conversation, which the pointer names. *)
Definition stored : FS :=
  {| history :=
       {[ "2026-01-22T010757.json" := FJson (DTranscript hello);
          ACTIVE_CHAT_FILE := FJson (DPointer (Some "2026-01-22T010757.json")) ]};
     input_file := None;
     output_file := Some (render hello) |}.

(** A store whose pointer names a file that is gone. *)
Definition stale : FS :=
  {| history := {[ ACTIVE_CHAT_FILE := FJson (DPointer (Some "gone.json")) ]};
     input_file := None;
     output_file := None |}.

Definition turn (prompt : string) : Turn :=
  {| turn_env := answering; turn_prompt := prompt;
     turn_reply := "hi there"; turn_usage := usage538 |}.

End Sample.

(* ================================================================== *)
(** ** The entry point: [Chat.__init__] and [main] *)
(* ================================================================== *)

(** A [Chat] instance: the key and the request headers built from it. *)
Record Client : Type := {
  api_key : string;
  headers : list (string * string)
}.

(** [Chat.__init__]; [API_KEY] is what [os.getenv("API_KEY")] gave. *)
Definition Chat_init (API_KEY : option string) (api_key : option string)
  : result Client :=
  let api_key :=                                   (* api_key or API_KEY *)
    match Text.nonempty api_key with
    | Some k => Some k
    | None => API_KEY
    end in
  match Text.nonempty api_key with
  | None =>
      Raise (ValueError
               "API_KEY not found. Set it in .env file or pass it to the script.")
  | Some k =>
      Ok {| api_key := k;
            headers := [("Authorization", "Bearer " +:+ k);
                        ("Content-Type", "application/json")] |}
  end.

(** The value of [args.new]: [store_true] makes it a boolean; the second
    branch of [main] asks whether it is a string. *)
Inductive new_value : Type :=
  | NewFlag (b : bool)
  | NewText (s : string).

Definition new_truthy (v : new_value) : bool :=
  match v with NewFlag b => b | NewText s => Text.truthy s end.

Definition is_str (v : new_value) : bool :=
  match v with NewText _ => true | NewFlag _ => false end.

(** What [parser.parse_args()] returns. *)
Record Args : Type := {
  arg_prompt : option string;
  arg_new : new_value;
  arg_load : option string;
  arg_api_key : option string
}.

(** Lines 305-316 of [main]: [new_chat] and [prompt] from the arguments.
    [chat] only tests [new_chat] for truth. *)
Definition main_arguments (args : Args) : bool * option string :=
  let given := match Text.nonempty (arg_prompt args) with
               | Some _ => true
               | None => false
               end in
  if new_truthy (arg_new args) && given then (true, arg_prompt args)
  else if new_truthy (arg_new args) && is_str (arg_new args) then
    (true, match arg_new args with NewText s => Some s | NewFlag _ => None end)
  else (new_truthy (arg_new args), arg_prompt args).

(** What a run of the program receives from outside: the environment
    variable, [requests.post] with the headers it is called with, and the
    clock. *)
Record World : Type := {
  env_API_KEY : option string;
  http : list (string * string) -> Payload -> HttpResult;
  clock_create : datetime;
  clock_update : datetime
}.

(** The environment of [chat] for a client in a world. *)
Definition env_of (W : World) (c : Client) : Env :=
  {| post := http W (headers c);
     now_create := clock_create W;
     now_update := clock_update W |}.

(** How the process ends: normally, or by [sys.exit(1)] after the caught
    exception was printed. *)
Inductive exit : Type :=
  | Exit0
  | Exit1 (e : exn).

Section Main.

Variable STREAMING : bool.
Variable json_loads : string -> option json.

(** [main], from the parsed arguments on. *)
Definition main (args : Args) (W : World) (fs : FS) : FS * exit :=
  let '(new_chat, prompt) := main_arguments args in
  match Chat_init (env_API_KEY W) (arg_api_key args) with
  | Raise e => (fs, Exit1 e)
  | Ok chat_manager =>
      match chat STREAMING json_loads (env_of W chat_manager)
              prompt new_chat (arg_load args) fs with
      | (fs', Ok _) => (fs', Exit0)
      | (fs', Raise e) => (fs', Exit1 e)
      end
  end.

End Main.

(** *** Further vocabulary *)

(** [n] has at most [k] decimal digits. *)
Fixpoint below (k n : nat) : Prop :=
  match k with
  | O => n = O
  | S k' => below k' (n / 10)
  end.

(** A clock reading within the ranges of [datetime]: a year of at most
    four digits, a microsecond of at most six, the other fields of at most
    two. *)
Definition valid_datetime (d : datetime) : Prop :=
  below 4 (year d) /\ below 2 (month d) /\ below 2 (day d)
  /\ below 2 (hour d) /\ below 2 (minute d) /\ below 2 (second d)
  /\ below 6 (microsecond d).

(** The line is the sentinel that ends a stream. *)
Definition sentinel (line : string) : bool :=
  Text.startswith "data: " line && String.eqb (Text.drop 6 line) "[DONE]".

(** A chunk that is [null], a boolean or a number. *)
Definition scalar (chunk : json) : Prop :=
  match chunk with
  | JNull | JBool _ | JInt _ => True
  | JStr _ | JArr _ | JObj _ => False
  end.

(** The three files agree: the pointer names a file holding transcript [t]
    and the output file is the rendering of [t]. *)
Definition consistent (fs : FS) (name : string) (t : Transcript) : Prop :=
  active_session fs name t /\ output_file fs = Some (render t).

(** The store with another input file. *)
Definition with_input (fs : FS) (text : option string) : FS :=
  {| history := history fs; input_file := text; output_file := output_file fs |}.

(** A text made of the patterns [pats] only. *)
Inductive made_of (pats : list string) : string -> Prop :=
  | made_of_nil : made_of pats ""
  | made_of_cons (w s : string) :
      In w pats -> made_of pats s -> made_of pats (w +:+ s).

(** The text begins with a character that is not whitespace, whatever
    follows it. *)
Definition clean_start (s : string) : Prop :=
  forall tail, Text.leading Text.whitespace (s +:+ tail) = None.

(** The text ends with a character that is not whitespace, whatever
    precedes it. *)
Definition clean_end (s : string) : Prop :=
  forall tail,
    Text.leading (map String.rev Text.whitespace) (String.rev s +:+ tail) = None.

(** The file name as the specification words it, character by character:
    a colon is dropped, a period is replaced by a hyphen, every other
    character is kept. *)
Definition safe_char (c : ascii) : string :=
  if Ascii.eqb c ":" then ""
  else if Ascii.eqb c "." then "-"
  else String c "".

Fixpoint safe_stem (s : string) : string :=
  match s with
  | EmptyString => EmptyString
  | String c s' => safe_char c +:+ safe_stem s'
  end.

(** *** Sample data for the entry point and for damaged stores *)

Module Demo.

(** A world whose API answers every request with the sample response. *)
Definition world (key : option string) : World :=
  {| env_API_KEY := key;
     http := fun _ _ => Responded Sample.response;
     clock_create := Sample.created;
     clock_update := Sample.updated |}.

Definition args (prompt : option string) (new : bool) (load key : option string)
  : Args :=
  {| arg_prompt := prompt; arg_new := NewFlag new;
     arg_load := load; arg_api_key := key |}.

(** A store whose pointer file is not JSON. *)
Definition garbled : FS :=
  {| history := {[ ACTIVE_CHAT_FILE := FGarbage ]};
     input_file := None; output_file := None |}.

(** A store whose pointer names a file that is not JSON. *)
Definition garbled_target : FS :=
  {| history := {[ "notes.json" := FGarbage;
                   ACTIVE_CHAT_FILE := FJson (DPointer (Some "notes.json")) ]};
     input_file := None; output_file := None |}.

(** A store with a JSON file that is not a transcript, which the pointer
    names. *)
Definition misdirected : FS :=
  {| history := {[ "settings.json" := FJson (DPointer None);
                   ACTIVE_CHAT_FILE := FJson (DPointer (Some "settings.json")) ]};
     input_file := None; output_file := None |}.

(** The sample store with an input file. *)
Definition with_note : FS :=
  with_input Sample.stored (Some (" " +:+ nl +:+ "how are you" +:+ nl)).

(** An API that answers every request with [r]. *)
Definition answering_with (r : Response) : Env :=
  {| post := fun _ => Responded r;
     now_create := Sample.created; now_update := Sample.updated |}.

(** A stream that breaks after its first fragment. *)
Definition interrupted : Response :=
  {| resp_json := Ok Sample.body;
     resp_lines := [ "data: " +:+ Sample.delta_text_of "hi " ];
     resp_broken := Some "Connection broken: IncompleteRead" |}.

(** [json.loads] that also knows the text [null]. *)
Definition loads (data : string) : option json :=
  if String.eqb data "null" then Some JNull else Sample.loads data.

(** A stream with a [null] chunk after its first fragment. *)
Definition with_null : Response :=
  {| resp_json := Ok Sample.body;
     resp_lines := [ "data: " +:+ Sample.delta_text_of "hi " ]
                   ++ ("data: " +:+ "null") :: [ "data: [DONE]" ];
     resp_broken := None |}.

(** A batched body with the reply and no usage. *)
Definition reply_only : list (string * json) :=
  [("id", JStr "cmpl-2");
   ("choices",
    JArr [JObj [("index", JInt 0);
                ("message", JObj [("role", JStr "assistant");
                                  ("content", JStr "hi there")])]])].

Definition without_usage : Response :=
  {| resp_json := Ok (JObj reply_only); resp_lines := []; resp_broken := None |}.

End Demo.

(* ================================================================== *)
(** ** Basic facts *)
(* ================================================================== *)

Lemma append_cons (c : ascii) (s t : string) :
  String c s +:+ t = String c (s +:+ t).
Proof. reflexivity. Qed.

Lemma append_nil_r (s : string) : s +:+ "" = s.
Proof.
  induction s as [|c s IH]; [reflexivity|].
  now rewrite append_cons, IH.
Qed.

Lemma append_assoc (a b c : string) : (a +:+ b) +:+ c = a +:+ (b +:+ c).
Proof.
  induction a as [|x a IH]; [reflexivity|].
  now rewrite !append_cons, IH.
Qed.

Lemma nonempty_Some (o : option string) (s : string) :
  Text.nonempty o = Some s -> o = Some s /\ Text.truthy s = true.
Proof.
  destruct o as [x|]; simpl; [|discriminate].
  destruct (Text.truthy x) eqn:Hx; [|discriminate].
  intros [= ->]. split; [reflexivity | exact Hx].
Qed.

Lemma nonempty_truthy (s : string) :
  Text.truthy s = true -> Text.nonempty (Some s) = Some s.
Proof. intros H. simpl. now rewrite H. Qed.

Lemma add_usage_json (a u : Usage) :
  add_usage a (usage_json u) = Ok (usage_add a u).
Proof. reflexivity. Qed.

Lemma usage_add_zero (a : Usage) : usage_add a no_usage = a.
Proof.
  destruct a as [p c t]. unfold usage_add, no_usage. simpl.
  now rewrite !Z.add_0_r.
Qed.

Lemma normalized_content (s : string) (u : json) :
  assistant_content (normalized s u) = Ok s.
Proof. reflexivity. Qed.

Lemma normalized_usage (s : string) (u : json) :
  Py.getitem (normalized s u) "usage" = Ok u.
Proof. reflexivity. Qed.

(** *** Stripping a text made of whitespace *)

Lemma length_append (a b : string) :
  String.length (a +:+ b) = (String.length a + String.length b)%nat.
Proof.
  induction a as [|c a IH]; [reflexivity|].
  rewrite append_cons. simpl. now rewrite IH.
Qed.

Lemma drop_append (a b : string) : Text.drop (String.length a) (a +:+ b) = b.
Proof.
  induction a as [|c a IH]; [now destruct b|].
  rewrite append_cons. simpl. exact IH.
Qed.

Lemma leading_whitespace (w s : string) :
  In w Text.whitespace ->
  Text.leading Text.whitespace (w +:+ s) = Some w
  /\ (String.length w =? 0)%nat = false.
Proof.
  unfold Text.whitespace. simpl In. intros H.
  repeat (destruct H as [<- | H]; [split; reflexivity|]).
  destruct H.
Qed.

Lemma length_drop (n : nat) (s : string) :
  (String.length (Text.drop n s) <= String.length s)%nat.
Proof.
  revert s. induction n as [|n IH]; intros [|c s]; simpl; try lia.
  specialize (IH s). lia.
Qed.

Lemma length_drop_S (n : nat) (s : string) (fuel : nat) :
  (String.length s <= S fuel)%nat ->
  (String.length (Text.drop (S n) s) <= fuel)%nat.
Proof.
  destruct s as [|c s]; simpl; [lia|].
  pose proof (length_drop n s). lia.
Qed.

Lemma strip_leading_empty (pats : list string) (fuel : nat) :
  Text.strip_leading fuel pats "" = "".
Proof.
  induction fuel as [|fuel IH]; [reflexivity|]. simpl.
  destruct (Text.leading pats "") as [p|]; [|reflexivity].
  destruct (String.length p) as [|k]; [reflexivity|]. exact IH.
Qed.

(** The fuel [lstrip] and [rstrip] give is enough: more changes nothing. *)
Lemma strip_leading_enough (pats : list string) (f1 : nat) :
  forall (f2 : nat) (s : string),
    (String.length s <= f1)%nat -> (String.length s <= f2)%nat ->
    Text.strip_leading f1 pats s = Text.strip_leading f2 pats s.
Proof.
  induction f1 as [|f1 IH]; intros f2 s H1 H2.
  - destruct s; [|simpl in H1; lia]. now rewrite !strip_leading_empty.
  - destruct f2 as [|f2].
    + destruct s; [|simpl in H2; lia]. now rewrite !strip_leading_empty.
    + cbn [Text.strip_leading].
      destruct (Text.leading pats s) as [p|]; [|reflexivity].
      destruct (String.length p) as [|k]; [reflexivity|].
      cbn [Nat.eqb].
      apply IH; now apply length_drop_S.
Qed.

Lemma strip_leading_blank (s : string) :
  blank s ->
  forall fuel, (String.length s <= fuel)%nat ->
  Text.strip_leading fuel Text.whitespace s = "".
Proof.
  induction 1 as [|w s Hw Hs IH]; intros fuel Hfuel.
  - now destruct fuel.
  - destruct (leading_whitespace w s Hw) as [Hlead Hlen].
    rewrite length_append in Hfuel.
    apply Nat.eqb_neq in Hlen.
    destruct fuel as [|fuel]; [lia|].
    cbn [Text.strip_leading]. rewrite Hlead.
    destruct (String.length w =? 0)%nat eqn:Hz; [apply Nat.eqb_eq in Hz; lia|].
    rewrite drop_append. apply IH. lia.
Qed.

Lemma strip_blank (s : string) : blank s -> Text.strip s = "".
Proof.
  intros H. unfold Text.strip, Text.lstrip.
  now rewrite (strip_leading_blank s H).
Qed.

(** *** Stripping a text with a core *)

Lemma rev_app_append (s acc : string) :
  String.rev_app s acc = String.rev s +:+ acc.
Proof.
  unfold String.rev. revert acc. induction s as [|c s IH]; intros acc.
  - reflexivity.
  - simpl. rewrite (IH (String c acc)), (IH (String c "")).
    now rewrite append_assoc.
Qed.

Lemma rev_cons (c : ascii) (s : string) :
  String.rev (String c s) = String.rev s +:+ String c "".
Proof. unfold String.rev at 1. simpl. apply rev_app_append. Qed.

Lemma rev_append (a b : string) :
  String.rev (a +:+ b) = String.rev b +:+ String.rev a.
Proof.
  induction a as [|c a IH].
  - change ("" +:+ b) with b. now rewrite append_nil_r.
  - rewrite append_cons, !rev_cons, IH. now rewrite append_assoc.
Qed.

Lemma rev_involutive (s : string) : String.rev (String.rev s) = s.
Proof.
  induction s as [|c s IH]; [reflexivity|].
  rewrite rev_cons, rev_append, IH. reflexivity.
Qed.

Lemma length_rev (s : string) : String.length (String.rev s) = String.length s.
Proof.
  induction s as [|c s IH]; [reflexivity|].
  rewrite rev_cons, length_append, IH. simpl. lia.
Qed.

Lemma made_of_append (pats : list string) (a b : string) :
  made_of pats a -> made_of pats b -> made_of pats (a +:+ b).
Proof.
  induction 1 as [|w s Hw Hs IH]; intros Hb; [exact Hb|].
  rewrite append_assoc. apply made_of_cons; auto.
Qed.

Lemma made_of_rev (pats : list string) (s : string) :
  made_of pats s -> made_of (map String.rev pats) (String.rev s).
Proof.
  induction 1 as [|w s Hw Hs IH]; [constructor|].
  rewrite rev_append. apply made_of_append; [exact IH|].
  rewrite <- (append_nil_r (String.rev w)).
  apply made_of_cons; [now apply in_map | constructor].
Qed.

(** Reversed whitespace characters are recognized at the head as such. *)
Lemma leading_whitespace_rev (w s : string) :
  In w (map String.rev Text.whitespace) ->
  Text.leading (map String.rev Text.whitespace) (w +:+ s) = Some w
  /\ (String.length w =? 0)%nat = false.
Proof.
  unfold Text.whitespace. simpl In. intros H.
  repeat (destruct H as [<- | H]; [split; reflexivity|]).
  destruct H.
Qed.

(** Stripping the head of a text that starts with characters of [pats] and
    goes on with something [pats] does not match. *)
Lemma strip_leading_made_of (pats : list string) (a rest : string) :
  (forall w s, In w pats ->
     Text.leading pats (w +:+ s) = Some w /\ (String.length w =? 0)%nat = false) ->
  made_of pats a ->
  Text.leading pats rest = None ->
  forall fuel, (String.length (a +:+ rest) <= fuel)%nat ->
  Text.strip_leading fuel pats (a +:+ rest) = rest.
Proof.
  intros Hpats Ha Hrest. induction Ha as [|w s Hw Hs IH]; intros fuel Hfuel.
  - change ("" +:+ rest) with rest.
    destruct fuel; [reflexivity|]. cbn [Text.strip_leading]. now rewrite Hrest.
  - rewrite append_assoc in *.
    destruct (Hpats w (s +:+ rest) Hw) as [Hlead Hlen].
    rewrite length_append in Hfuel.
    pose proof Hlen as Hpos. apply Nat.eqb_neq in Hpos.
    destruct fuel as [|fuel]; [lia|].
    cbn [Text.strip_leading]. rewrite Hlead, Hlen, drop_append.
    apply IH. lia.
Qed.

(** [strip] removes the whitespace around a text that begins and ends with
    other characters, and nothing else. *)
Lemma strip_core (a core b : string) :
  made_of Text.whitespace a -> made_of Text.whitespace b ->
  clean_start core -> clean_end core ->
  Text.strip (a +:+ core +:+ b) = core.
Proof.
  intros Ha Hb Hstart Hend. unfold Text.strip, Text.lstrip.
  rewrite (strip_leading_made_of Text.whitespace a (core +:+ b)
             leading_whitespace Ha (Hstart b)) by lia.
  unfold Text.rstrip. rewrite rev_append.
  rewrite (strip_leading_made_of (map String.rev Text.whitespace)
             (String.rev b) (String.rev core) leading_whitespace_rev
             (made_of_rev _ _ Hb)).
  - apply rev_involutive.
  - rewrite <- (append_nil_r (String.rev core)). apply Hend.
  - rewrite <- rev_append, length_rev. lia.
Qed.

Lemma clean_start_truthy (s : string) : clean_start s -> Text.truthy s = true.
Proof.
  intros H. destruct s; [|reflexivity].
  specialize (H " "). discriminate.
Qed.

Section Invocation.

Variable STREAMING : bool.
Variable json_loads : string -> option json.

#[local] Abbreviation chat := (chat STREAMING json_loads).

(** A store without pointer file has the shape; [chat_pointer_shape] shows
    that every invocation keeps it. *)
Lemma pointer_shape_no_pointer (fs : FS) :
  history fs !! ACTIVE_CHAT_FILE = None -> pointer_shape fs.
Proof. intros H t. rewrite H. discriminate. Qed.

(** Resolving the session and reading the prompt write no file. *)
Lemma resolve_session_fs (E : Env) (new_chat : bool) (fs : FS) :
  fst (resolve_session E new_chat fs) = fs.
Proof.
  unfold resolve_session, get_active_chat, except_FileNotFoundError,
    load_chat_history, mbind, M_bind, mret, M_ret.
  destruct new_chat; [reflexivity|].
  destruct (history fs !! ACTIVE_CHAT_FILE) as [[[t|a]|]|]; simpl; try reflexivity.
  destruct (Text.nonempty a) as [f|]; [|reflexivity].
  destruct (history fs !! f) as [[d|]|]; reflexivity.
Qed.

Lemma acquire_prompt_fs (prompt : option string) (fs : FS) :
  fst (acquire_prompt prompt fs) = fs.
Proof.
  unfold acquire_prompt.
  destruct (Text.nonempty match Text.nonempty prompt, input_file fs with
                          | None, Some text => Some (Text.strip text)
                          | _, _ => prompt
                          end); reflexivity.
Qed.

(** The new/continue path of [chat], phase by phase. *)
Lemma chat_unfold (E : Env) (prompt : option string) (new_chat : bool)
    (load_file : option string) (fs : FS) :
  Text.nonempty load_file = None ->
  chat E prompt new_chat load_file fs =
    match snd (resolve_session E new_chat fs) with
    | Raise e => (fs, Raise e)
    | Ok (chat_data, filename) =>
        match snd (acquire_prompt prompt fs) with
        | Raise e => (fs, Raise e)
        | Ok p =>
            match chat_data with
            | DPointer _ => (fs, Raise (KeyError "messages"))
            | DTranscript t =>
                match exchange STREAMING json_loads E t p with
                | Ok (reply, u) =>
                    let t' := extended t p reply u (now_update E) in
                    (persisted fs (saved_as t' filename) t', Ok tt)
                | Raise e => (fs, Raise e)
                end
            end
        end
    end.
Proof.
  intros Hload.
  unfold chat. rewrite Hload.
  unfold mbind at 1. unfold M_bind at 1.
  pose proof (resolve_session_fs E new_chat fs) as Hfs.
  destruct (resolve_session E new_chat fs) as [fs1 [[chat_data filename]|e]];
    simpl in Hfs; subst; simpl snd; [|reflexivity].
  unfold mbind at 1. unfold M_bind at 1.
  pose proof (acquire_prompt_fs prompt fs) as Hfs.
  destruct (acquire_prompt prompt fs) as [fs2 [p|e]];
    simpl in Hfs; subst; simpl snd; [|reflexivity].
  destruct chat_data as [t|a]; [|reflexivity].
  unfold exchange, mbind, M_bind, lift, result_bind.
  destruct (send_message json_loads E _ STREAMING) as [response|e]; [|reflexivity].
  destruct (assistant_content response) as [reply|e]; [|reflexivity].
  destruct (Py.getitem response "usage") as [ju|e]; [|reflexivity].
  destruct (add_usage (usage t) ju) as [u|e]; [|reflexivity].
  unfold save_chat_history, set_active_chat, update_output_md, write_history,
    write_output, persisted, saved_as, extended, mbind, M_bind, mret, M_ret.
  rewrite <- (app_assoc (messages t)).
  destruct filename; reflexivity.
Qed.

(** The same, once the session is resolved and the prompt known. *)
Lemma chat_exchange (E : Env) (prompt : option string) (new_chat : bool)
    (load_file : option string) (fs : FS)
    (t : Transcript) (filename : option string) (p : string) :
  Text.nonempty load_file = None ->
  snd (resolve_session E new_chat fs) = Ok (DTranscript t, filename) ->
  snd (acquire_prompt prompt fs) = Ok p ->
  chat E prompt new_chat load_file fs =
    match exchange STREAMING json_loads E t p with
    | Ok (reply, u) =>
        let t' := extended t p reply u (now_update E) in
        (persisted fs (saved_as t' filename) t', Ok tt)
    | Raise e => (fs, Raise e)
    end.
Proof.
  intros Hload Hres Hp.
  now rewrite (chat_unfold E prompt new_chat load_file fs Hload), Hres, Hp.
Qed.

(** Whatever goes wrong on the new/continue path, no file is written. *)
Lemma chat_raise_fs (E : Env) (prompt : option string) (new_chat : bool)
    (load_file : option string) (fs : FS) (e : exn) :
  Text.nonempty load_file = None ->
  snd (chat E prompt new_chat load_file fs) = Raise e ->
  e <> Unsupported ->
  fst (chat E prompt new_chat load_file fs) = fs.
Proof.
  intros Hload Hraise _. revert Hraise.
  rewrite (chat_unfold E prompt new_chat load_file fs Hload).
  destruct (snd (resolve_session E new_chat fs)) as [[[t|a] filename]|e1];
    [| |reflexivity];
    (destruct (snd (acquire_prompt prompt fs)) as [p|e2]; [|reflexivity]);
    [|reflexivity].
  destruct (exchange STREAMING json_loads E t p) as [[reply u]|e']; simpl;
    [discriminate | reflexivity].
Qed.

(** C1.  When the request fails in transport (connection error or
    non-success status, [RequestFailed]), the invocation that reached the
    exchange ends with the one error "API request failed: ..." and the file
    store is the one it started with: transcript files, pointer file and
    rendered view are untouched, whatever the store and the request. *)
Theorem transport_failure_aborts (E : Env) (prompt : option string)
    (new_chat : bool) (load_file : option string) (fs : FS)
    (t : Transcript) (filename : option string) (p e : string) :
  Text.nonempty load_file = None ->
  snd (resolve_session E new_chat fs) = Ok (DTranscript t, filename) ->
  snd (acquire_prompt prompt fs) = Ok p ->
  post E (payload_of (messages t ++ [ {| role := user; content := p |} ]) STREAMING)
    = RequestFailed e ->
  chat E prompt new_chat load_file fs
    = (fs, Raise (RuntimeError ("API request failed: " +:+ e))).
Proof.
  intros Hload Hres Hp Hpost.
  rewrite (chat_exchange E prompt new_chat load_file fs t filename p Hload Hres Hp).
  unfold exchange, send_message.
  fold (payload_of (messages t ++ [ {| role := user; content := p |} ]) STREAMING).
  now rewrite Hpost.
Qed.

(** The load path of [chat]. *)
Lemma chat_load (E : Env) (prompt : option string) (new_chat : bool)
    (f : string) (fs : FS) :
  Text.truthy f = true ->
  chat E prompt new_chat (Some f) fs =
    match history fs !! f with
    | None => (fs, Raise (FileNotFoundError ("Chat history file not found: " +:+ f)))
    | Some FGarbage => (fs, Raise JSONDecodeError)
    | Some (FJson (DTranscript t)) => (switched fs f t, Ok tt)
    | Some (FJson (DPointer _)) =>
        ({| history := <[ACTIVE_CHAT_FILE := FJson (DPointer (Some f))]> (history fs);
            input_file := input_file fs;
            output_file := Some ("# Chat History" +:+ nl +:+ nl) |},
         Raise (KeyError "created_at"))
    end.
Proof.
  intros Hf. unfold chat. rewrite (nonempty_truthy f Hf).
  unfold mbind, M_bind, load_chat_history.
  destruct (history fs !! f) as [[[t|a]|]|]; reflexivity.
Qed.


(** The pointer file lives in the history directory: loading it by its own
    name makes it name itself, and rendering fails on the missing
    ['created_at'] after the title was written. *)
Lemma chat_load_pointer_file (E : Env) (prompt : option string)
    (new_chat : bool) (fs : FS) (a : option string) :
  history fs !! ACTIVE_CHAT_FILE = Some (FJson (DPointer a)) ->
  chat E prompt new_chat (Some ACTIVE_CHAT_FILE) fs
  = ({| history :=
          <[ACTIVE_CHAT_FILE := FJson (DPointer (Some ACTIVE_CHAT_FILE))]> (history fs);
        input_file := input_file fs;
        output_file := Some ("# Chat History" +:+ nl +:+ nl) |},
     Raise (KeyError "created_at")).
Proof.
  intros Hp. now rewrite (chat_load E prompt new_chat ACTIVE_CHAT_FILE fs eq_refl), Hp.
Qed.

(** Session resolution when the pointer is stale. *)
Lemma resolve_stale (E : Env) (fs : FS) :
  stale_pointer fs ->
  resolve_session E false fs
    = (fs, Ok (DTranscript (create_chat_history (now_create E)), None)).
Proof.
  unfold resolve_session, get_active_chat, except_FileNotFoundError,
    load_chat_history, mbind, M_bind, mret, M_ret.
  intros [H | [(a & H & Ha) | (f & H & Hf)]]; rewrite H; simpl.
  - reflexivity.
  - fold (Text.nonempty a). now rewrite Ha.
  - destruct (Text.truthy f); [|reflexivity]. now rewrite Hf.
Qed.

(** Session resolution when the pointer names an existing transcript. *)
Lemma resolve_continue (E : Env) (fs : FS) (f : string) (t : Transcript) :
  history fs !! ACTIVE_CHAT_FILE = Some (FJson (DPointer (Some f))) ->
  Text.truthy f = true ->
  history fs !! f = Some (FJson (DTranscript t)) ->
  resolve_session E false fs = (fs, Ok (DTranscript t, Some f)).
Proof.
  intros Hp Hf Ht.
  unfold resolve_session, get_active_chat, except_FileNotFoundError,
    load_chat_history, mbind, M_bind, mret, M_ret.
  rewrite Hp. simpl. rewrite Hf, Ht. reflexivity.
Qed.

(** [chat] uses [new_chat] only to resolve the session. *)
Lemma chat_resolve_ext (E : Env) (prompt : option string) (n1 n2 : bool)
    (load_file : option string) (fs : FS) :
  Text.nonempty load_file = None ->
  resolve_session E n1 fs = resolve_session E n2 fs ->
  chat E prompt n1 load_file fs = chat E prompt n2 load_file fs.
Proof.
  intros Hload H.
  now rewrite !(chat_unfold E prompt _ load_file fs Hload), H.
Qed.

(** C4.  Without [--new] and [--load]: when the pointer file is missing,
    or names no active chat, or names a file that does not exist, session
    resolution does not fail, it yields a fresh empty transcript with no
    file name, and the invocation goes on exactly as with [--new]; when the
    pointer names an existing transcript, that transcript is the one the
    exchange extends and saves under the same name. *)
Theorem stale_pointer_falls_back (E : Env) (prompt : option string)
    (load_file : option string) (fs : FS) :
  Text.nonempty load_file = None ->
  (stale_pointer fs ->
     resolve_session E false fs
       = (fs, Ok (DTranscript (create_chat_history (now_create E)), None))
     /\ chat E prompt false load_file fs = chat E prompt true load_file fs)
  /\ (forall f t p reply u,
       history fs !! ACTIVE_CHAT_FILE = Some (FJson (DPointer (Some f))) ->
       Text.truthy f = true ->
       history fs !! f = Some (FJson (DTranscript t)) ->
       snd (acquire_prompt prompt fs) = Ok p ->
       exchange STREAMING json_loads E t p = Ok (reply, u) ->
       resolve_session E false fs = (fs, Ok (DTranscript t, Some f))
       /\ chat E prompt false load_file fs
          = (persisted fs f (extended t p reply u (now_update E)), Ok tt)).
Proof.
  intros Hload. split.
  - intros Hstale. split; [now apply resolve_stale|].
    apply chat_resolve_ext; [exact Hload|]. now rewrite resolve_stale.
  - intros f t p reply u Hp Hf Ht Hprompt Hex.
    pose proof (resolve_continue E fs f t Hp Hf Ht) as Hr.
    split; [exact Hr|].
    rewrite (chat_exchange E prompt false load_file fs t (Some f) p Hload);
      [now rewrite Hex | now rewrite Hr | exact Hprompt].
Qed.

(** The prompt [chat] ends up with when the caller gave none and the
    input file exists. *)
Lemma acquire_prompt_file (prompt : option string) (fs : FS) (text : string) :
  Text.nonempty prompt = None ->
  input_file fs = Some text ->
  acquire_prompt prompt fs = acquire_prompt (Some (Text.strip text)) fs.
Proof.
  intros Hp Hin. unfold acquire_prompt. rewrite Hp, Hin.
  destruct (Text.nonempty (Some (Text.strip text))) eqn:Hs; [|now rewrite Hs].
  apply nonempty_Some in Hs as [[= <-] Ht]. now rewrite nonempty_truthy.
Qed.

Lemma chat_prompt_ext (E : Env) (p1 p2 : option string) (new_chat : bool)
    (load_file : option string) (fs : FS) :
  Text.nonempty load_file = None ->
  acquire_prompt p1 fs = acquire_prompt p2 fs ->
  chat E p1 new_chat load_file fs = chat E p2 new_chat load_file fs.
Proof.
  intros Hload H.
  now rewrite !(chat_unfold E _ new_chat load_file fs Hload), H.
Qed.

(** C8.  On the new/continue path, when the caller supplies no prompt: if
    the input file exists the invocation behaves as if its stripped text
    had been given as the prompt, and stripping removes the whitespace
    around the text and nothing else: for a file made of whitespace, a text
    that begins and ends with other characters, and whitespace again, the
    prompt is that text, inner whitespace included; if the input file is
    absent or holds only whitespace, the invocation fails with "No prompt
    provided..." and the file store is unchanged: nothing was appended,
    sent or saved. *)
Theorem empty_prompt_rejected (E : Env) (prompt : option string)
    (new_chat : bool) (load_file : option string) (fs : FS) :
  Text.nonempty load_file = None ->
  Text.nonempty prompt = None ->
  (forall text, input_file fs = Some text ->
     chat E prompt new_chat load_file fs
       = chat E (Some (Text.strip text)) new_chat load_file fs)
  /\ (forall a core b,
        input_file fs = Some (a +:+ core +:+ b) ->
        made_of Text.whitespace a -> made_of Text.whitespace b ->
        clean_start core -> clean_end core ->
        Text.strip (a +:+ core +:+ b) = core
        /\ acquire_prompt prompt fs = (fs, Ok core)
        /\ chat E prompt new_chat load_file fs
           = chat E (Some core) new_chat load_file fs)
  /\ ((input_file fs = None \/ exists text, input_file fs = Some text /\ blank text) ->
      forall d filename,
        snd (resolve_session E new_chat fs) = Ok (d, filename) ->
        chat E prompt new_chat load_file fs
          = (fs, Raise (ValueError
               "No prompt provided. Either pass a prompt or create input.md file."))).
Proof.
  intros Hload Hprompt. split; [|split].
  - intros text Hin. apply chat_prompt_ext; [exact Hload|].
    now apply acquire_prompt_file.
  - intros a core b Hin Ha Hb Hstart Hend.
    pose proof (strip_core a core b Ha Hb Hstart Hend) as Hstrip.
    pose proof (nonempty_truthy core (clean_start_truthy core Hstart)) as Hcore.
    assert (Hacq : acquire_prompt prompt fs = (fs, Ok core)).
    { unfold acquire_prompt. now rewrite Hprompt, Hin, Hstrip, Hcore. }
    split; [exact Hstrip|]. split; [exact Hacq|].
    apply chat_prompt_ext; [exact Hload|]. rewrite Hacq.
    unfold acquire_prompt. rewrite Hcore. now rewrite Hcore.
  - intros Hfile d filename Hres.
    assert (Ha : acquire_prompt prompt fs
                 = (fs, Raise (ValueError
                      "No prompt provided. Either pass a prompt or create input.md file."))).
    { unfold acquire_prompt. rewrite Hprompt.
      destruct Hfile as [-> | (text & -> & Hblank)].
      - now rewrite Hprompt.
      - now rewrite (strip_blank text Hblank). }
    now rewrite (chat_unfold E prompt new_chat load_file fs Hload), Hres, Ha.
Qed.

End Invocation.

(* ================================================================== *)
(** ** The streaming handler *)
(* ================================================================== *)

Section Stream.

Variable json_loads : string -> option json.

#[local] Abbreviation handle_line := (handle_line json_loads).
#[local] Abbreviation stream_loop := (stream_loop json_loads).
#[local] Abbreviation handle_stream := (handle_stream json_loads).
#[local] Abbreviation received := (received json_loads).

Lemma present_object (k : string) (kv : list (string * json)) :
  present k (JObj kv)
    = Ok (match Py.assoc k kv with Some v => Py.truthy v | None => false end).
Proof.
  unfold present, Py.contains, Py.getitem. simpl.
  now destruct (Py.assoc k kv).
Qed.

Lemma capture_usage_object (kv : list (string * json)) (u : json) :
  capture_usage (JObj kv) u = Ok (default u (chunk_usage (JObj kv))).
Proof.
  unfold capture_usage. rewrite present_object.
  unfold chunk_usage, Py.getitem. simpl.
  destruct (Py.assoc "usage" kv) as [x|]; simpl; [|reflexivity].
  now destruct (Py.truthy x).
Qed.

Lemma append_content_well_formed (chunk : json) (frag full : string) :
  chunk_fragment chunk = Some frag ->
  append_content chunk full = Ok (full +:+ frag).
Proof.
  destruct chunk as [| | | |l|kv]; try discriminate.
  intros Hfrag. unfold append_content. rewrite present_object.
  unfold chunk_fragment in Hfrag. unfold Py.getitem.
  destruct (Py.assoc "choices" kv) as [choices|]; simpl.
  - destruct choices as [| | | |[|choice l]|]; try discriminate; simpl.
    + injection Hfrag as <-. now rewrite append_nil_r.
    + injection Hfrag as <-. now rewrite append_nil_r.
    + unfold delta_text in Hfrag. destruct choice as [| | | | |ckv]; try discriminate.
      simpl. destruct (Py.assoc "delta" ckv) as [delta|]; simpl.
      * destruct delta as [| | | | |d]; try discriminate. simpl.
        destruct (Py.assoc "content" d) as [[| | |s| |]|]; try discriminate; simpl;
          injection Hfrag as <-.
        -- now rewrite append_nil_r.
        -- destruct s; simpl; [now rewrite append_nil_r | reflexivity].
        -- now rewrite append_nil_r.
      * injection Hfrag as <-. now rewrite append_nil_r.
  - injection Hfrag as <-. now rewrite append_nil_r.
Qed.

(** A well-formed chunk appends its fragment and replaces the usage when
    it carries a non-empty one. *)
Lemma handle_chunk_well_formed (chunk : json) (frag full : string) (u : json) :
  chunk_fragment chunk = Some frag ->
  handle_chunk chunk (full, u)
    = Ok (full +:+ frag, default u (chunk_usage chunk)).
Proof.
  intros Hfrag. unfold handle_chunk.
  rewrite (append_content_well_formed chunk frag full Hfrag).
  destruct chunk as [| | | |l|kv]; try discriminate.
  simpl. now rewrite capture_usage_object.
Qed.

(** The loop body, without the test for an empty line (an empty line does
    not start with [data: ]). *)
Lemma handle_line_cases (line : string) (st : stream_state) :
  handle_line line st =
    if Text.startswith "data: " line then
      if String.eqb (Text.drop 6 line) "[DONE]" then Ok (Break st)
      else
        match json_loads (Text.drop 6 line) with
        | None => Ok (Next st)
        | Some chunk => Next <$> handle_chunk chunk st
        end
    else Ok (Next st).
Proof. unfold handle_line. now destruct line. Qed.

Lemma handle_line_done (st : stream_state) :
  handle_line "data: [DONE]" st = Ok (Break st).
Proof. reflexivity. Qed.

Lemma handle_line_malformed (d : string) (st : stream_state) :
  json_loads d = None -> d <> "[DONE]" ->
  handle_line ("data: " +:+ d) st = Ok (Next st).
Proof.
  intros Hbad Hd. rewrite handle_line_cases.
  change (Text.startswith "data: " ("data: " +:+ d)) with true.
  change (Text.drop 6 ("data: " +:+ d)) with d.
  apply String.eqb_neq in Hd. now rewrite Hd, Hbad.
Qed.

Lemma stream_loop_cons (line : string) (lines : list string)
    (broken : option string) (st : stream_state) :
  stream_loop (line :: lines) broken st =
    match handle_line line st with
    | Ok (Next st') => stream_loop lines broken st'
    | Ok (Break st') => Ok st'
    | Raise e => Raise e
    end.
Proof. reflexivity. Qed.

Lemma received_cons (line : string) (lines : list string) :
  received (line :: lines) =
    if Text.startswith "data: " line then
      if String.eqb (Text.drop 6 line) "[DONE]" then []
      else
        match json_loads (Text.drop 6 line) with
        | Some chunk => chunk :: received lines
        | None => received lines
        end
    else received lines.
Proof. reflexivity. Qed.

(** The usage the loop ends with, from the one it starts with. *)
Lemma fold_usage (chunks : list json) (u : json) (o : option json) :
  fold_left (fun u chunk => default u (chunk_usage chunk)) chunks (default u o)
  = default u (fold_left (fun o chunk =>
                            match chunk_usage chunk with
                            | Some u => Some u
                            | None => o
                            end) chunks o).
Proof.
  revert o. induction chunks as [|chunk chunks IH]; intros o; [reflexivity|].
  simpl. rewrite <- IH. now destruct (chunk_usage chunk).
Qed.

(** The loop over a stream of well-formed chunks that ends normally. *)
Lemma stream_loop_received (lines : list string) (full : string) (u : json) :
  Forall well_formed (received lines) ->
  stream_loop lines None (full, u)
    = Ok (full +:+ fragments (received lines),
          fold_left (fun u chunk => default u (chunk_usage chunk)) (received lines) u).
Proof.
  revert full u. induction lines as [|line lines IH]; intros full u Hwf.
  - simpl. now rewrite append_nil_r.
  - rewrite stream_loop_cons, handle_line_cases.
    rewrite received_cons in *.
    destruct (Text.startswith "data: " line); [|now apply IH].
    destruct (String.eqb (Text.drop 6 line) "[DONE]").
    { simpl. now rewrite append_nil_r. }
    destruct (json_loads (Text.drop 6 line)) as [chunk|]; [|now apply IH].
    apply Forall_cons in Hwf as [[frag Hfrag] Hwf].
    rewrite (handle_chunk_well_formed chunk frag full u Hfrag). simpl.
    rewrite (IH _ _ Hwf), Hfrag. simpl. now rewrite append_assoc.
Qed.

Lemma handle_stream_received (r : Response) :
  resp_broken r = None ->
  Forall well_formed (received (resp_lines r)) ->
  handle_stream r
    = Ok (normalized (fragments (received (resp_lines r)))
            (default zero_usage (reported_usage (received (resp_lines r))))).
Proof.
  intros Hend Hwf. unfold handle_stream. rewrite Hend.
  rewrite (stream_loop_received _ "" zero_usage Hwf). simpl.
  unfold reported_usage. now rewrite <- (fold_usage _ zero_usage None).
Qed.

(** Nothing after the sentinel is consumed. *)
Lemma stream_loop_done (pre post : list string) (broken : option string)
    (st : stream_state) :
  stream_loop (pre ++ "data: [DONE]" :: post) broken st = stream_loop pre None st.
Proof.
  revert st. induction pre as [|line pre IH]; intros st.
  - reflexivity.
  - rewrite <- app_comm_cons, !stream_loop_cons.
    destruct (handle_line line st) as [[st'|st']|e]; [apply IH | reflexivity..].
Qed.

(** A chunk that does not parse leaves the loop state as it is. *)
Lemma stream_loop_malformed (pre post : list string) (d : string)
    (broken : option string) (st : stream_state) :
  json_loads d = None -> d <> "[DONE]" ->
  stream_loop (pre ++ ("data: " +:+ d) :: post) broken st
    = stream_loop (pre ++ post) broken st.
Proof.
  intros Hbad Hd. revert st. induction pre as [|line pre IH]; intros st.
  - simpl app. now rewrite stream_loop_cons, (handle_line_malformed d st Hbad Hd).
  - rewrite <- !app_comm_cons, !stream_loop_cons.
    destruct (handle_line line st) as [[st'|st']|e]; [apply IH | reflexivity..].
Qed.

(** C6.  For a stream that ends normally and whose chunks are well formed,
    the handler returns the fragments of the chunks received before the
    sentinel, concatenated in arrival order.  Whatever the lines, what
    follows the [[DONE]] line is not consumed, and a [data: ] line whose
    payload is not valid JSON is skipped: the handler gives what it gives
    without that line. *)
Theorem stream_concatenates_until_done :
  (forall r : Response,
     resp_broken r = None ->
     Forall well_formed (received (resp_lines r)) ->
     handle_stream r
       = Ok (normalized (fragments (received (resp_lines r)))
               (default zero_usage (reported_usage (received (resp_lines r))))))
  /\ (forall (body : result json) (pre post : list string) (broken : option string),
        handle_stream {| resp_json := body;
                         resp_lines := pre ++ "data: [DONE]" :: post;
                         resp_broken := broken |}
        = handle_stream {| resp_json := body; resp_lines := pre;
                           resp_broken := None |})
  /\ (forall (body : result json) (pre post : list string) (d : string)
             (broken : option string),
        json_loads d = None -> d <> "[DONE]" ->
        handle_stream {| resp_json := body;
                         resp_lines := pre ++ ("data: " +:+ d) :: post;
                         resp_broken := broken |}
        = handle_stream {| resp_json := body; resp_lines := pre ++ post;
                           resp_broken := broken |}).
Proof.
  split; [exact handle_stream_received|]. split.
  - intros body pre post broken. unfold handle_stream. simpl.
    now rewrite stream_loop_done.
  - intros body pre post d broken Hbad Hd. unfold handle_stream. simpl.
    now rewrite (stream_loop_malformed pre post d broken _ Hbad Hd).
Qed.

Lemma reported_usage_none (chunks : list json) :
  Forall (fun chunk => chunk_usage chunk = None) chunks ->
  forall o, fold_left (fun o chunk =>
                         match chunk_usage chunk with
                         | Some u => Some u
                         | None => o
                         end) chunks o = o.
Proof.
  induction 1 as [|chunk chunks Hc _ IH]; intros o; [reflexivity|].
  simpl. now rewrite Hc, IH.
Qed.

Lemma reported_usage_last (pre post : list json) (chunk U : json) :
  chunk_usage chunk = Some U ->
  Forall (fun chunk => chunk_usage chunk = None) post ->
  reported_usage (pre ++ chunk :: post) = Some U.
Proof.
  intros HU Hpost. unfold reported_usage.
  rewrite fold_left_app. simpl. rewrite HU.
  now apply reported_usage_none.
Qed.

(** C10.  In streaming mode, for a stream that ends normally and whose
    chunks are well formed, the usage the handler returns is the usage
    object of the last chunk that carries a non-empty one, whatever usage
    objects came before it (they are replaced, not added); when no chunk
    carries one it is {0, 0, 0}, and adding it to cumulative totals leaves
    them as they are. *)
Theorem stream_usage_is_last_reported (r : Response) :
  resp_broken r = None ->
  Forall well_formed (received (resp_lines r)) ->
  exists response,
    handle_stream r = Ok response
    /\ (forall pre chunk post U,
          received (resp_lines r) = pre ++ chunk :: post ->
          chunk_usage chunk = Some U ->
          Forall (fun chunk => chunk_usage chunk = None) post ->
          Py.getitem response "usage" = Ok U)
    /\ (Forall (fun chunk => chunk_usage chunk = None) (received (resp_lines r)) ->
        Py.getitem response "usage" = Ok (usage_json no_usage)
        /\ forall acc, add_usage acc (usage_json no_usage) = Ok acc).
Proof.
  intros Hend Hwf. eexists. split; [now apply handle_stream_received|]. split.
  - intros pre chunk post U Heq HU Hpost.
    rewrite normalized_usage, Heq.
    now rewrite (reported_usage_last pre post chunk U HU Hpost).
  - intros Hnone. rewrite normalized_usage. unfold reported_usage.
    rewrite (reported_usage_none _ Hnone). split; [reflexivity|].
    intros acc. now rewrite add_usage_json, usage_add_zero.
Qed.

End Stream.


(* ================================================================== *)
(** ** The rendered view *)
(* ================================================================== *)

Lemma capitalize_role (r : Role) : Text.capitalize (role_str r) = label r.
Proof. now destruct r. Qed.

Lemma write_message_section (f : string) (msg : Message) :
  write_message f msg = f +:+ view_section msg.
Proof. unfold write_message, view_section. now rewrite capitalize_role. Qed.

Lemma write_messages_sections (msgs : list Message) (f : string) :
  fold_left write_message msgs f = f +:+ view_sections msgs.
Proof.
  revert f. induction msgs as [|msg msgs IH]; intros f; simpl.
  - now rewrite append_nil_r.
  - now rewrite IH, write_message_section, append_assoc.
Qed.

Lemma render_view (t : Transcript) :
  render t = view_header t +:+ view_sections (messages t) +:+ view_usage (usage t).
Proof.
  unfold render, view_header, view_usage.
  rewrite write_messages_sections.
  now rewrite !append_assoc.
Qed.

(** C9.  [update_output_md] replaces the output file by a text that depends
    on the transcript alone: the header with [created_at], [last_updated_at]
    and [model], then one section per message in order, labelled with the
    capitalized role and holding the content as it is, then the three usage
    counters.  For the messages user "hello", assistant "hi there" and usage
    {5, 3, 8} the text has the section "## User" with hello, the section
    "## Assistant" with hi there, and the counters 5, 3 and 8. *)
Theorem view_is_function_of_transcript :
  (forall (t : Transcript) (fs : FS),
     update_output_md (DTranscript t) fs
       = ({| history := history fs; input_file := input_file fs;
             output_file := Some (view_header t +:+ view_sections (messages t)
                                  +:+ view_usage (usage t)) |}, Ok tt))
  /\ (forall (t : Transcript) (fs1 fs2 : FS),
        output_file (fst (update_output_md (DTranscript t) fs1))
        = output_file (fst (update_output_md (DTranscript t) fs2)))
  /\ (forall (m c l : string),
        render {| model := m;
                  messages := [ {| role := user; content := "hello" |};
                                {| role := assistant; content := "hi there" |} ];
                  usage := {| prompt_tokens := 5; completion_tokens := 3;
                              total_tokens := 8 |};
                  created_at := c;
                  last_updated_at := l |}
        = "# Chat History" +:+ nl +:+ nl +:+
          "**Created:** " +:+ c +:+ nl +:+ nl +:+
          "**Last Updated:** " +:+ l +:+ nl +:+ nl +:+
          "**Model:** " +:+ m +:+ nl +:+ nl +:+
          "---" +:+ nl +:+ nl +:+
          "## User" +:+ nl +:+ nl +:+ "hello" +:+ nl +:+ nl +:+
          "## Assistant" +:+ nl +:+ nl +:+ "hi there" +:+ nl +:+ nl +:+
          "---" +:+ nl +:+ nl +:+
          "**Usage Statistics:**" +:+ nl +:+ nl +:+
          "- Prompt Tokens: 5" +:+ nl +:+
          "- Completion Tokens: 3" +:+ nl +:+
          "- Total Tokens: 8" +:+ nl).
Proof.
  split; [|split].
  - intros t fs. unfold update_output_md, write_output. now rewrite render_view.
  - reflexivity.
  - intros m c l. rewrite render_view. unfold view_header. simpl.
    now rewrite !append_assoc.
Qed.

(* ================================================================== *)
(** ** File names *)
(* ================================================================== *)

Lemma has_char_append (c : ascii) (a b : string) :
  has_char c (a +:+ b) = has_char c a || has_char c b.
Proof.
  induction a as [|x a IH]; [reflexivity|].
  rewrite append_cons. simpl. now rewrite IH, orb_assoc.
Qed.

(** Replacing [c] by a text without [c] leaves no [c]. *)
Lemma replace_removes (c : ascii) (by_ s : string) :
  has_char c by_ = false -> has_char c (Text.replace c by_ s) = false.
Proof.
  intros Hby. induction s as [|a s IH]; [reflexivity|].
  simpl. destruct (Ascii.eqb a c) eqn:Hac.
  - now rewrite has_char_append, Hby, IH.
  - simpl. now rewrite Hac, IH.
Qed.

(** Replacing another character by a text without [c] brings no [c] in. *)
Lemma replace_keeps_absent (c c' : ascii) (by_ s : string) :
  has_char c by_ = false -> has_char c s = false ->
  has_char c (Text.replace c' by_ s) = false.
Proof.
  intros Hby. induction s as [|a s IH]; [reflexivity|].
  simpl. intros [Ha Hs]%orb_false_iff.
  destruct (Ascii.eqb a c').
  - now rewrite has_char_append, Hby, IH.
  - simpl. now rewrite Ha, IH.
Qed.

(** The name is the sanitized timestamp followed by [.json]; the sanitized
    timestamp has neither colon nor period. *)
Lemma get_chat_filename_safe (created : string) :
  exists stem,
    get_chat_filename created = stem +:+ ".json"
    /\ has_char ":" stem = false /\ has_char "." stem = false.
Proof.
  exists (Text.replace "." "-" (Text.replace ":" "" created)).
  split; [reflexivity|]. split.
  - apply replace_keeps_absent; [reflexivity|]. now apply replace_removes.
  - now apply replace_removes.
Qed.

Lemma get_chat_filename_truthy (created : string) :
  Text.truthy (get_chat_filename created) = true.
Proof.
  unfold get_chat_filename.
  now destruct (Text.replace "." "-" (Text.replace ":" "" created)).
Qed.

Lemma digit_cases (n : nat) :
  In (digit n) ["0"; "1"; "2"; "3"; "4"; "5"; "6"; "7"; "8"; "9"]%char.
Proof.
  unfold digit. pose proof (Nat.mod_upper_bound n 10 ltac:(lia)) as H.
  destruct (n mod 10)%nat as [|[|[|[|[|[|[|[|[|[|k]]]]]]]]]];
    simpl; auto 12. lia.
Qed.

(** A clock reading starts with a digit of the year. *)
Lemma isoformat_head (d : datetime) :
  exists rest, isoformat d = String (digit (year d / 10 / 10 / 10)) rest.
Proof. eexists. reflexivity. Qed.

(** The name derived from a clock reading is not the pointer file's. *)
Lemma fresh_name_not_pointer (d : datetime) :
  get_chat_filename (isoformat d) <> ACTIVE_CHAT_FILE.
Proof.
  destruct (isoformat_head d) as [rest ->].
  unfold get_chat_filename, ACTIVE_CHAT_FILE.
  pose proof (digit_cases (year d / 10 / 10 / 10)) as H.
  generalize dependent (digit (year d / 10 / 10 / 10)). intros dg H.
  simpl in H.
  repeat (destruct H as [<- | H]; [simpl; rewrite append_cons; discriminate|]).
  destruct H.
Qed.

(** *** The names of fresh transcripts *)

Lemma length_zpad (k n : nat) : String.length (zpad k n) = k.
Proof.
  revert n. induction k as [|k IH]; intros n; [reflexivity|].
  cbn [zpad]. rewrite length_append, IH. cbn [String.length]. lia.
Qed.

Lemma append_inj_length (a a' b b' : string) :
  String.length a = String.length a' ->
  a +:+ b = a' +:+ b' -> a = a' /\ b = b'.
Proof.
  revert a'. induction a as [|c a IH]; intros [|c' a'] Hlen Heq;
    try discriminate.
  - now split.
  - rewrite !append_cons in Heq. injection Heq as -> Heq.
    injection Hlen as Hlen. destruct (IH a' Hlen Heq) as [-> ->]. now split.
Qed.

Lemma digit_inj (n m : nat) : digit n = digit m -> (n mod 10 = m mod 10)%nat.
Proof.
  unfold digit, Text.chr. intros H.
  pose proof (Nat.mod_upper_bound n 10 ltac:(lia)) as Hn.
  pose proof (Nat.mod_upper_bound m 10 ltac:(lia)) as Hm.
  apply (f_equal nat_of_ascii) in H.
  rewrite !nat_ascii_embedding in H by lia. lia.
Qed.

(** [zpad] loses nothing of a number that has at most [k] digits. *)
Lemma zpad_inj (k : nat) :
  forall n m, below k n -> below k m -> zpad k n = zpad k m -> n = m.
Proof.
  induction k as [|k IH]; intros n m Hn Hm Heq.
  - simpl in Hn, Hm. congruence.
  - cbn [below zpad] in Hn, Hm, Heq.
    apply append_inj_length in Heq as [Hhigh Hlow];
      [|now rewrite !length_zpad].
    injection Hlow as Hlow. apply digit_inj in Hlow.
    pose proof (IH _ _ Hn Hm Hhigh) as Hdiv.
    rewrite (Nat.div_mod_eq n 10), (Nat.div_mod_eq m 10). congruence.
Qed.

Lemma replace_append (c : ascii) (by_ a b : string) :
  Text.replace c by_ (a +:+ b) = Text.replace c by_ a +:+ Text.replace c by_ b.
Proof.
  induction a as [|x a IH]; [reflexivity|].
  rewrite append_cons. simpl. rewrite IH.
  destruct (Ascii.eqb x c); [now rewrite append_assoc | reflexivity].
Qed.

Lemma replace_absent (c : ascii) (by_ s : string) :
  has_char c s = false -> Text.replace c by_ s = s.
Proof.
  induction s as [|a s IH]; [reflexivity|].
  simpl. intros [Ha Hs]%orb_false_iff. now rewrite Ha, IH.
Qed.

(** A zero-padded number holds digits only. *)
Lemma has_char_zpad (c : ascii) (k n : nat) :
  ~ In c ["0"; "1"; "2"; "3"; "4"; "5"; "6"; "7"; "8"; "9"]%char ->
  has_char c (zpad k n) = false.
Proof.
  intros Hc. revert n. induction k as [|k IH]; intros n; [reflexivity|].
  cbn [zpad]. rewrite has_char_append, IH. cbn [has_char orb].
  rewrite orb_false_r.
  apply Ascii.eqb_neq. intros Heq. apply Hc. rewrite <- Heq. apply digit_cases.
Qed.

Lemma sanitize_zpad (k n : nat) :
  Text.replace "." "-" (Text.replace ":" "" (zpad k n)) = zpad k n.
Proof.
  assert (Hnot : forall c : ascii,
            c = ":"%char \/ c = "."%char ->
            ~ In c ["0"; "1"; "2"; "3"; "4"; "5"; "6"; "7"; "8"; "9"]%char).
  { intros c [-> | ->] H; simpl in H;
      repeat (destruct H as [H|H]; [discriminate|]); exact H. }
  rewrite (replace_absent ":" "" (zpad k n)) by (apply has_char_zpad; auto).
  now rewrite (replace_absent "." "-" (zpad k n)) by (apply has_char_zpad; auto).
Qed.

(** The name a conversation created at clock reading [d] is saved under:
    the date, [T], the time without colons, the microsecond after a hyphen
    when it is not zero, and [.json]. *)
Lemma fresh_name_form (d : datetime) :
  get_chat_filename (isoformat d)
  = zpad 4 (year d) +:+ "-" +:+ zpad 2 (month d) +:+ "-" +:+ zpad 2 (day d)
    +:+ "T" +:+ zpad 2 (hour d) +:+ zpad 2 (minute d) +:+ zpad 2 (second d)
    +:+ (if (microsecond d =? 0)%nat then "" else "-" +:+ zpad 6 (microsecond d))
    +:+ ".json".
Proof.
  unfold get_chat_filename, isoformat.
  destruct (microsecond d =? 0)%nat;
    rewrite !replace_append, !sanitize_zpad, !append_assoc; reflexivity.
Qed.

Lemma append_char_inj (c : ascii) (a b : string) :
  String c "" +:+ a = String c "" +:+ b -> a = b.
Proof. intros [= H]. exact H. Qed.

(** The name derived from a clock reading determines the reading. *)
Lemma fresh_name_inj (d1 d2 : datetime) :
  valid_datetime d1 -> valid_datetime d2 ->
  get_chat_filename (isoformat d1) = get_chat_filename (isoformat d2) ->
  d1 = d2.
Proof.
  intros (Hy1 & Hmo1 & Hd1 & Hh1 & Hmi1 & Hs1 & Hu1)
         (Hy2 & Hmo2 & Hd2 & Hh2 & Hmi2 & Hs2 & Hu2) Heq.
  rewrite !fresh_name_form in Heq.
  destruct d1 as [y1 mo1 da1 h1 mi1 s1 u1], d2 as [y2 mo2 da2 h2 mi2 s2 u2].
  cbn [year month day hour minute second microsecond] in *.
  apply append_inj_length in Heq as [Hy Heq]; [|now rewrite !length_zpad].
  apply append_char_inj in Heq.
  apply append_inj_length in Heq as [Hmo Heq]; [|now rewrite !length_zpad].
  apply append_char_inj in Heq.
  apply append_inj_length in Heq as [Hda Heq]; [|now rewrite !length_zpad].
  apply append_char_inj in Heq.
  apply append_inj_length in Heq as [Hh Heq]; [|now rewrite !length_zpad].
  apply append_inj_length in Heq as [Hmi Heq]; [|now rewrite !length_zpad].
  apply append_inj_length in Heq as [Hs Heq]; [|now rewrite !length_zpad].
  apply (zpad_inj 4) in Hy; [|assumption..].
  apply (zpad_inj 2) in Hmo; [|assumption..].
  apply (zpad_inj 2) in Hda; [|assumption..].
  apply (zpad_inj 2) in Hh; [|assumption..].
  apply (zpad_inj 2) in Hmi; [|assumption..].
  apply (zpad_inj 2) in Hs; [|assumption..].
  subst.
  assert (Hu : u1 = u2).
  { destruct (u1 =? 0)%nat eqn:Hz1, (u2 =? 0)%nat eqn:Hz2.
    - apply Nat.eqb_eq in Hz1, Hz2. congruence.
    - change ("" +:+ ".json") with ".json" in Heq.
      rewrite append_assoc, append_cons in Heq. discriminate.
    - change ("" +:+ ".json") with ".json" in Heq.
      rewrite append_assoc, append_cons in Heq. discriminate.
    - rewrite !append_assoc in Heq. apply append_char_inj in Heq.
      apply append_inj_length in Heq as [Hu _]; [|now rewrite !length_zpad].
      now apply (zpad_inj 6) in Hu. }
  now subst.
Qed.

(** The two replacements of [get_chat_filename], one after the other, do
    what the character-by-character reading says. *)
Lemma get_chat_filename_safe_stem (created : string) :
  get_chat_filename created = safe_stem created +:+ ".json".
Proof.
  unfold get_chat_filename. f_equal.
  induction created as [|c created IH]; [reflexivity|].
  cbn [Text.replace safe_stem]. unfold safe_char.
  destruct (Ascii.eqb c ":") eqn:Hcolon.
  - change ("" +:+ Text.replace ":" "" created) with (Text.replace ":" "" created).
    change ("" +:+ safe_stem created) with (safe_stem created). exact IH.
  - cbn [Text.replace]. destruct (Ascii.eqb c "."); now rewrite IH.
Qed.

(* ================================================================== *)
(** ** Persistence and the pointer *)
(* ================================================================== *)

Section Persistence.

Variable STREAMING : bool.
Variable json_loads : string -> option json.

#[local] Abbreviation chat := (chat STREAMING json_loads).
#[local] Abbreviation exchange := (exchange STREAMING json_loads).

(** What a resolved session is. *)
Lemma resolve_session_inv (E : Env) (new_chat : bool) (fs : FS)
    (d : document) (filename : option string) :
  snd (resolve_session E new_chat fs) = Ok (d, filename) ->
  (filename = None /\ d = DTranscript (create_chat_history (now_create E)))
  \/ (exists f, filename = Some f /\ Text.truthy f = true
                /\ history fs !! ACTIVE_CHAT_FILE = Some (FJson (DPointer (Some f)))
                /\ history fs !! f = Some (FJson d)).
Proof.
  unfold resolve_session, get_active_chat, except_FileNotFoundError,
    load_chat_history, mbind, M_bind, mret, M_ret.
  destruct new_chat; simpl; [intros [= <- <-]; now left|].
  destruct (history fs !! ACTIVE_CHAT_FILE) as [[[t|[f|]]|]|] eqn:Hp; simpl;
    try (intros [= <- <-]; now left); try discriminate.
  destruct (Text.truthy f) eqn:Hf; [|intros [= <- <-]; now left].
  destruct (history fs !! f) as [[d'|]|] eqn:Hd; simpl;
    try (intros [= <- <-]; now left); try discriminate.
  intros [= <- <-]. right. now exists f.
Qed.

(** The transcript of a resolved session is never saved over the pointer
    file. *)
Lemma saved_name_not_pointer (E : Env) (new_chat : bool) (fs : FS)
    (t : Transcript) (filename : option string) (p reply : string) (u : Usage)
    (now : datetime) :
  snd (resolve_session E new_chat fs) = Ok (DTranscript t, filename) ->
  saved_as (extended t p reply u now) filename <> ACTIVE_CHAT_FILE.
Proof.
  intros [[-> [= ->]] | (f & -> & _ & Hp & Hf)]%resolve_session_inv; simpl.
  - apply fresh_name_not_pointer.
  - intros ->. rewrite Hp in Hf. discriminate.
Qed.

(** Every invocation leaves the pointer file, if any, in the shape of a
    pointer. *)
Lemma chat_pointer_shape (E : Env) (prompt : option string) (new_chat : bool)
    (load_file : option string) (fs : FS) :
  pointer_shape fs ->
  snd (chat E prompt new_chat load_file fs) <> Raise Unsupported ->
  pointer_shape (fst (chat E prompt new_chat load_file fs)).
Proof.
  intros Hshape _. destruct (Text.nonempty load_file) as [f|] eqn:Hload.
  - apply nonempty_Some in Hload as [-> Hf].
    rewrite (chat_load STREAMING json_loads E prompt new_chat f fs Hf).
    destruct (history fs !! f) as [[[t|a]|]|]; try exact Hshape;
      intros t'; simpl; now rewrite lookup_insert_eq.
  - rewrite (chat_unfold STREAMING json_loads E prompt new_chat load_file fs Hload).
    destruct (snd (resolve_session E new_chat fs)) as [[[t|a] filename]|e];
      try exact Hshape;
      (destruct (snd (acquire_prompt prompt fs)) as [p|e]; [|exact Hshape]);
      [|exact Hshape].
    destruct (exchange E t p) as [[reply u]|e]; [|exact Hshape].
    intros t'. simpl. now rewrite lookup_insert_eq.
Qed.

(** C7.  On a successful exchange the transcript is saved under the name
    derived from its [created_at] when the session had no file name, and
    under the existing name otherwise; the derived name is the timestamp
    without its colons and with its periods replaced, followed by [.json],
    and depends on [created_at] alone; afterwards the pointer file names
    the file the transcript was saved under.  The derivation is pinned
    three ways: the name is [created_at] read character by character, a
    colon dropped, a period turned into a hyphen, anything else kept, with
    [.json] appended; for a session without a file name, [created_at] is
    the reading of the creation clock and the name is its date, [T], its
    time without colons, its microsecond after a hyphen when not zero, and
    [.json]; and ["2026-01-22T01:07:57.000250"] gives
    ["2026-01-22T010757-000250.json"]. *)
Theorem saved_under_derived_or_existing_name (E : Env) (prompt : option string)
    (new_chat : bool) (load_file : option string) (fs : FS)
    (t : Transcript) (filename : option string) (p reply : string) (u : Usage) :
  Text.nonempty load_file = None ->
  snd (resolve_session E new_chat fs) = Ok (DTranscript t, filename) ->
  snd (acquire_prompt prompt fs) = Ok p ->
  exchange E t p = Ok (reply, u) ->
  let t' := extended t p reply u (now_update E) in
  let name := match filename with
              | None => get_chat_filename (created_at t)
              | Some f => f
              end in
  chat E prompt new_chat load_file fs = (persisted fs name t', Ok tt)
  /\ history (persisted fs name t') !! name = Some (FJson (DTranscript t'))
  /\ history (persisted fs name t') !! ACTIVE_CHAT_FILE
       = Some (FJson (DPointer (Some name)))
  /\ (exists stem,
        get_chat_filename (created_at t) = stem +:+ ".json"
        /\ has_char ":" stem = false /\ has_char "." stem = false)
  /\ (forall t2 : Transcript,
        created_at t2 = created_at t ->
        get_chat_filename (created_at t2) = get_chat_filename (created_at t))
  /\ (forall created,
        get_chat_filename created = safe_stem created +:+ ".json")
  /\ (filename = None ->
      created_at t = isoformat (now_create E)
      /\ name
         = zpad 4 (year (now_create E)) +:+ "-"
           +:+ zpad 2 (month (now_create E)) +:+ "-"
           +:+ zpad 2 (day (now_create E)) +:+ "T"
           +:+ zpad 2 (hour (now_create E)) +:+ zpad 2 (minute (now_create E))
           +:+ zpad 2 (second (now_create E))
           +:+ (if (microsecond (now_create E) =? 0)%nat then ""
                else "-" +:+ zpad 6 (microsecond (now_create E)))
           +:+ ".json")
  /\ get_chat_filename "2026-01-22T01:07:57.000250"
     = "2026-01-22T010757-000250.json".
Proof.
  intros Hload Hres Hp Hex t' name.
  assert (Hsaved : saved_as t' filename = name) by now destruct filename.
  assert (Hname : name <> ACTIVE_CHAT_FILE).
  { rewrite <- Hsaved.
    exact (saved_name_not_pointer E new_chat fs t filename p reply u
             (now_update E) Hres). }
  split; [|split; [|split; [|split; [|split; [|split; [|split]]]]]].
  - rewrite (chat_exchange STREAMING json_loads E prompt new_chat load_file fs
               t filename p Hload Hres Hp), Hex.
    simpl. fold t'. now rewrite Hsaved.
  - unfold persisted. simpl.
    rewrite lookup_insert_ne by congruence. apply lookup_insert_eq.
  - unfold persisted. simpl. apply lookup_insert_eq.
  - apply get_chat_filename_safe.
  - now intros t2 ->.
  - apply get_chat_filename_safe_stem.
  - intros Hnone.
    assert (Hcreated : created_at t = isoformat (now_create E)).
    { apply resolve_session_inv in Hres
        as [[_ [= ->]] | (f & Hsome & _)]; [reflexivity | congruence]. }
    split; [exact Hcreated|].
    subst name. rewrite Hnone, Hcreated. apply fresh_name_form.
  - reflexivity.
Qed.

End Persistence.

(* ================================================================== *)
(** ** Sessions of several exchanges *)
(* ================================================================== *)

Lemma int_iadd_shift (n m : Z) (v : json) :
  Py.int_iadd 0 v = Ok m -> Py.int_iadd n v = Ok (n + m).
Proof. destruct v as [|b|k| | |]; simpl; intros [= <-]; reflexivity. Qed.

(** Adding a usage object to cumulative totals adds its three counters. *)
Lemma add_usage_of (acc u : Usage) (response_usage : json) :
  usage_of response_usage = Ok u ->
  add_usage acc response_usage = Ok (usage_add acc u).
Proof.
  unfold usage_of, add_usage, mbind, result_bind.
  destruct (Py.getitem response_usage "prompt_tokens") as [v1|]; [|discriminate].
  destruct (Py.int_iadd (prompt_tokens no_usage) v1) as [p|] eqn:Hp; [|discriminate].
  destruct (Py.getitem response_usage "completion_tokens") as [v2|]; [|discriminate].
  destruct (Py.int_iadd (completion_tokens no_usage) v2) as [c|] eqn:Hc; [|discriminate].
  destruct (Py.getitem response_usage "total_tokens") as [v3|]; [|discriminate].
  destruct (Py.int_iadd (total_tokens no_usage) v3) as [t|] eqn:Ht; [|discriminate].
  intros [= <-].
  now rewrite (int_iadd_shift _ _ _ Hp), (int_iadd_shift _ _ _ Hc),
    (int_iadd_shift _ _ _ Ht).
Qed.

Lemma last_cons_default {A} (a d : A) (l : list A) :
  List.last (a :: l) d = List.last l a.
Proof.
  revert a d. induction l as [|b l IH]; intros a d; [reflexivity|].
  change (List.last (a :: b :: l) d) with (List.last (b :: l) d).
  now rewrite !IH.
Qed.

Lemma last_map {A B} (f : A -> B) (l : list A) (d : A) :
  List.last (map f l) (f d) = f (List.last l d).
Proof.
  induction l as [|a l IH]; [reflexivity|].
  destruct l as [|b l]; [reflexivity|]. exact IH.
Qed.

Lemma persisted_active_session (fs : FS) (name : string) (t : Transcript) :
  name <> ACTIVE_CHAT_FILE -> Text.truthy name = true ->
  active_session (persisted fs name t) name t.
Proof.
  intros Hne Hname. unfold active_session, persisted. simpl.
  rewrite lookup_insert_ne by congruence.
  now rewrite !lookup_insert_eq.
Qed.

Section SessionFacts.

Variable STREAMING : bool.
Variable json_loads : string -> option json.

#[local] Abbreviation invoke := (invoke STREAMING json_loads).
#[local] Abbreviation continue_session := (continue_session STREAMING json_loads).
#[local] Abbreviation session := (session STREAMING json_loads).
#[local] Abbreviation answers := (answers STREAMING json_loads).
#[local] Abbreviation answered := (answered STREAMING json_loads).

Lemma acquire_prompt_given (p : string) (fs : FS) :
  Text.truthy p = true -> acquire_prompt (Some p) fs = (fs, Ok p).
Proof.
  intros Hp. unfold acquire_prompt. rewrite (nonempty_truthy p Hp).
  now rewrite (nonempty_truthy p Hp).
Qed.

Lemma exchange_answers (T : Turn) (t : Transcript) :
  answers (messages t) T ->
  exchange STREAMING json_loads (turn_env T) t (turn_prompt T)
    = Ok (turn_reply T, usage_add (usage t) (turn_usage T)).
Proof.
  intros (_ & response & ju & Hsend & Hreply & Hju & Husage).
  unfold exchange. rewrite Hsend. simpl. rewrite Hreply. simpl.
  rewrite Hju. simpl. now rewrite (add_usage_of _ _ _ Husage).
Qed.

(** One run: the transcript a resolved session ends with. *)
Lemma invoke_resolved (new_chat : bool) (T : Turn) (fs : FS) (t : Transcript)
    (filename : option string) :
  snd (resolve_session (turn_env T) new_chat fs) = Ok (DTranscript t, filename) ->
  answers (messages t) T ->
  let t' := extended t (turn_prompt T) (turn_reply T)
              (usage_add (usage t) (turn_usage T)) (now_update (turn_env T)) in
  invoke new_chat T fs = (persisted fs (saved_as t' filename) t', Ok tt).
Proof.
  intros Hres Hans t'. unfold invoke.
  rewrite (chat_exchange STREAMING json_loads (turn_env T) (Some (turn_prompt T))
             new_chat None fs t filename (turn_prompt T) eq_refl Hres).
  - now rewrite (exchange_answers T t Hans).
  - destruct Hans as [Hp _]. now rewrite (acquire_prompt_given _ fs Hp).
Qed.

(** Runs without [--new] on an active session. *)
Lemma continue_session_spec (name : string) (turns : list Turn) :
  forall (fs : FS) (t : Transcript),
    active_session fs name t ->
    answered (messages t) turns ->
    exists fs' t',
      continue_session turns fs = (fs', Ok tt)
      /\ active_session fs' name t'
      /\ messages t' = messages t ++ concat (map turn_messages turns)
      /\ prompt_tokens (usage t')
         = prompt_tokens (usage t)
           + total (map (fun T => prompt_tokens (turn_usage T)) turns)
      /\ completion_tokens (usage t')
         = completion_tokens (usage t)
           + total (map (fun T => completion_tokens (turn_usage T)) turns)
      /\ total_tokens (usage t')
         = total_tokens (usage t)
           + total (map (fun T => total_tokens (turn_usage T)) turns)
      /\ created_at t' = created_at t
      /\ last_updated_at t'
         = List.last (map (fun T => isoformat (now_update (turn_env T))) turns)
             (last_updated_at t).
Proof.
  induction turns as [|T turns IH]; intros fs t Hact Hans.
  - exists fs, t. simpl. rewrite app_nil_r, !Z.add_0_r.
    split; [reflexivity|]. split; [exact Hact|]. now repeat split.
  - destruct Hans as [HT Hrest].
    destruct Hact as (Hfile & Hptr & Hname).
    assert (Hne : name <> ACTIVE_CHAT_FILE).
    { intros ->. rewrite Hptr in Hfile. discriminate. }
    pose proof (resolve_continue (turn_env T) fs name t Hptr Hname Hfile) as Hres.
    pose proof (invoke_resolved false T fs t (Some name)
                  ltac:(now rewrite Hres) HT) as Hrun.
    simpl in Hrun.
    set (t1 := extended t (turn_prompt T) (turn_reply T)
                 (usage_add (usage t) (turn_usage T)) (now_update (turn_env T))) in *.
    destruct (IH (persisted fs name t1) t1
                (persisted_active_session fs name t1 Hne Hname) Hrest)
      as (fs' & t' & Hcont & Hact' & Hmsgs & Hp & Hc & Ht & Hcreated & Hupd).
    exists fs', t'. split.
    { change (continue_session (T :: turns) fs)
        with (mbind (fun _ => continue_session turns) (invoke false T) fs).
      unfold mbind, M_bind. now rewrite Hrun. }
    split; [exact Hact'|].
    rewrite Hmsgs, Hp, Hc, Ht, Hcreated, Hupd.
    rewrite !map_cons, (last_cons_default _ (last_updated_at t)).
    simpl. rewrite <- app_assoc.
    repeat split; lia.
Qed.

(** C2.  A session of N >= 1 successful exchanges that starts with a fresh
    transcript ends with a saved transcript whose messages are, turn after
    turn, the user message then the assistant message: 2N messages with
    roles user, assistant, user, assistant, ...; each usage counter is the
    sum of that counter over the N exchanges; [last_updated_at] is the
    clock reading of the last turn and [created_at] that of the first. *)
Theorem session_accumulates (first : Turn) (rest : list Turn) (fs : FS) :
  answered [] (first :: rest) ->
  let turns := first :: rest in
  let name := get_chat_filename (isoformat (now_create (turn_env first))) in
  exists fs' t,
    session first rest fs = (fs', Ok tt)
    /\ history fs' !! name = Some (FJson (DTranscript t))
    /\ history fs' !! ACTIVE_CHAT_FILE = Some (FJson (DPointer (Some name)))
    /\ messages t = concat (map turn_messages turns)
    /\ length (messages t) = (2 * length turns)%nat
    /\ map role (messages t) = concat (map (fun _ => [user; assistant]) turns)
    /\ prompt_tokens (usage t)
       = total (map (fun T => prompt_tokens (turn_usage T)) turns)
    /\ completion_tokens (usage t)
       = total (map (fun T => completion_tokens (turn_usage T)) turns)
    /\ total_tokens (usage t)
       = total (map (fun T => total_tokens (turn_usage T)) turns)
    /\ created_at t = isoformat (now_create (turn_env first))
    /\ last_updated_at t = isoformat (now_update (turn_env (List.last rest first))).
Proof.
  intros [Hfirst Hrest] turns name.
  set (t0 := create_chat_history (now_create (turn_env first))).
  pose proof (invoke_resolved true first fs t0 None eq_refl Hfirst) as Hrun.
  simpl in Hrun.
  set (t1 := extended t0 (turn_prompt first) (turn_reply first)
               (usage_add (usage t0) (turn_usage first))
               (now_update (turn_env first))) in *.
  assert (Hact : active_session (persisted fs name t1) name t1).
  { apply persisted_active_session;
      [apply fresh_name_not_pointer | apply get_chat_filename_truthy]. }
  destruct (continue_session_spec name rest (persisted fs name t1) t1 Hact Hrest)
    as (fs' & t' & Hcont & (Hfile & Hptr & _) & Hmsgs & Hp & Hc & Ht & Hcreated & Hupd).
  exists fs', t'. split.
  { unfold session, mbind, M_bind. now rewrite Hrun. }
  assert (Hall : messages t' = concat (map turn_messages turns))
    by (rewrite Hmsgs; reflexivity).
  split; [exact Hfile|]. split; [exact Hptr|]. split; [exact Hall|].
  split.
  { rewrite Hall. clear. induction turns as [|T turns IH]; [reflexivity|].
    simpl in *. rewrite IH. lia. }
  split.
  { rewrite Hall. clear. induction turns as [|T turns IH]; [reflexivity|].
    simpl in *. now rewrite IH. }
  split; [rewrite Hp; reflexivity|].
  split; [rewrite Hc; reflexivity|].
  split; [rewrite Ht; reflexivity|].
  split; [exact Hcreated|].
  rewrite Hupd. simpl last_updated_at.
  apply (last_map (fun T => isoformat (now_update (turn_env T)))).
Qed.

End SessionFacts.

(* ================================================================== *)
(** ** Streaming and batched exchanges *)
(* ================================================================== *)

Section Modes.

Variable json_loads : string -> option json.

#[local] Abbreviation received := (received json_loads).

(** The environment enters session resolution through the clock only. *)
Lemma resolve_session_clock (E1 E2 : Env) (new_chat : bool) (fs : FS) :
  now_create E1 = now_create E2 ->
  resolve_session E1 new_chat fs = resolve_session E2 new_chat fs.
Proof. intros H. unfold resolve_session. now rewrite H. Qed.

(** What [send_message] returns in streaming mode for a well-formed stream. *)
Lemma send_message_streamed (E : Env) (msgs : list Message) (r : Response) :
  post E (payload_of msgs true) = Responded r ->
  resp_broken r = None ->
  Forall well_formed (received (resp_lines r)) ->
  send_message json_loads E msgs true
    = Ok (normalized (fragments (received (resp_lines r)))
            (default zero_usage (reported_usage (received (resp_lines r))))).
Proof.
  intros Hpost Hend Hwf. unfold send_message.
  fold (payload_of msgs true). rewrite Hpost.
  now rewrite (handle_stream_received json_loads r Hend Hwf).
Qed.

(** What [send_message] returns in batched mode. *)
Lemma send_message_batched (E : Env) (msgs : list Message) (r : Response)
    (body : json) :
  post E (payload_of msgs false) = Responded r ->
  resp_json r = Ok body ->
  send_message json_loads E msgs false = Ok body.
Proof.
  intros Hpost Hbody. unfold send_message.
  fold (payload_of msgs false). now rewrite Hpost, Hbody.
Qed.

(** C5.  For a message history [msgs]: when the streamed response carries
    well-formed chunks whose fragments concatenate to [S] and whose last
    non-empty usage object is [U], and the batched response has content [S]
    in its first choice and usage [U], both modes hand [chat] the same
    content and the same usage (the streamed one in the normalized shape),
    the exchange yields the same reply and totals, and with the same clock
    the invocation ends with the same file store, hence the same saved
    transcript. *)
Theorem streaming_matches_batched (Es Eb : Env) (rs rb : Response)
    (body : json) (S : string) (U : json) (msgs : list Message) :
  post Es (payload_of msgs true) = Responded rs ->
  resp_broken rs = None ->
  Forall well_formed (received (resp_lines rs)) ->
  fragments (received (resp_lines rs)) = S ->
  reported_usage (received (resp_lines rs)) = Some U ->
  post Eb (payload_of msgs false) = Responded rb ->
  resp_json rb = Ok body ->
  assistant_content body = Ok S ->
  Py.getitem body "usage" = Ok U ->
  (send_message json_loads Es msgs true = Ok (normalized S U)
   /\ send_message json_loads Eb msgs false = Ok body
   /\ assistant_content (normalized S U) = assistant_content body
   /\ Py.getitem (normalized S U) "usage" = Py.getitem body "usage")
  /\ (forall (t : Transcript) (p : string),
        msgs = messages t ++ [ {| role := user; content := p |} ] ->
        exchange true json_loads Es t p = exchange false json_loads Eb t p
        /\ forall (prompt : option string) (new_chat : bool)
                  (load_file : option string) (fs : FS) (filename : option string),
             now_create Es = now_create Eb ->
             now_update Es = now_update Eb ->
             Text.nonempty load_file = None ->
             snd (resolve_session Es new_chat fs) = Ok (DTranscript t, filename) ->
             snd (acquire_prompt prompt fs) = Ok p ->
             chat true json_loads Es prompt new_chat load_file fs
             = chat false json_loads Eb prompt new_chat load_file fs).
Proof.
  intros Hs Hend Hwf HS HU Hb Hbody Hcontent Husage.
  pose proof (send_message_streamed Es msgs rs Hs Hend Hwf) as Hsend_s.
  rewrite HS, HU in Hsend_s. simpl in Hsend_s.
  pose proof (send_message_batched Eb msgs rb body Hb Hbody) as Hsend_b.
  split.
  - repeat split; try assumption.
    + now rewrite normalized_content, Hcontent.
    + now rewrite normalized_usage, Husage.
  - intros t p ->.
    assert (Hex : exchange true json_loads Es t p = exchange false json_loads Eb t p).
    { unfold exchange. rewrite Hsend_s, Hsend_b. simpl.
      now rewrite Hcontent, Husage. }
    split; [exact Hex|].
    intros prompt new_chat load_file fs filename Hc Hu Hload Hres Hp.
    rewrite (chat_exchange true json_loads Es prompt new_chat load_file fs
               t filename p Hload Hres Hp).
    rewrite (resolve_session_clock Es Eb new_chat fs Hc) in Hres.
    rewrite (chat_exchange false json_loads Eb prompt new_chat load_file fs
               t filename p Hload Hres Hp).
    now rewrite Hex, Hu.
Qed.

(** A stream that breaks before the sentinel makes the request fail: lines
    that carry no data cannot stop the loop before the break. *)
Lemma broken_stream_fails (E : Env) (msgs : list Message) (r : Response)
    (e : string) :
  post E (payload_of msgs true) = Responded r ->
  resp_broken r = Some e ->
  Forall (fun line => Text.startswith "data: " line = false) (resp_lines r) ->
  send_message json_loads E msgs true
    = Raise (RuntimeError ("API request failed: " +:+ e)).
Proof.
  intros Hpost Hbroken Hlines. unfold send_message.
  fold (payload_of msgs true). rewrite Hpost. unfold handle_stream.
  rewrite Hbroken.
  assert (H : forall st,
             stream_loop json_loads (resp_lines r) (Some e) st
             = Raise (RequestException e)).
  { induction Hlines as [|line lines Hline _ IH]; intros st; [reflexivity|].
    rewrite stream_loop_cons, handle_line_cases, Hline. apply IH. }
  now rewrite H.
Qed.

End Modes.

(* ================================================================== *)
(** ** The theorems on the sample data *)
(* ================================================================== *)

Lemma sample_chunks :
  received Sample.loads Sample.lines
  = [Sample.delta_chunk "hi "; Sample.delta_chunk "there"; Sample.usage_chunk].
Proof. vm_compute. reflexivity. Defined.

Lemma sample_well_formed :
  Forall well_formed (received Sample.loads Sample.lines).
Proof.
  rewrite sample_chunks.
  repeat (constructor; [eexists; reflexivity|]). constructor.
Defined.

Lemma sample_pointer_shape : pointer_shape Sample.stored.
Proof. intros t. vm_compute. discriminate. Defined.

Lemma sample_answers (prev : list Message) (prompt : string) :
  Text.truthy prompt = true ->
  answers false Sample.loads prev (Sample.turn prompt).
Proof.
  intros Hp. split; [exact Hp|].
  exists Sample.body, (usage_json Sample.usage538).
  repeat split; reflexivity.
Defined.

(** The API is down while the stored conversation is continued: the error
    is the transport one and the store is the one before. *)
Lemma transport_failure_aborts_witness :
  chat false Sample.loads Sample.failing (Some "how are you") false None Sample.stored
  = (Sample.stored, Raise (RuntimeError "API request failed: 503 Server Error")).
Proof.
  apply (transport_failure_aborts false Sample.loads Sample.failing
           (Some "how are you") false None Sample.stored Sample.hello
           (Some "2026-01-22T010757.json") "how are you" "503 Server Error");
    vm_compute; reflexivity.
Defined.

(** Two exchanges from a fresh transcript: four messages, usage doubled. *)
Lemma session_accumulates_witness :
  exists fs' t,
    session false Sample.loads (Sample.turn "hello") [Sample.turn "again"] Sample.empty
      = (fs', Ok tt)
    /\ history fs' !! "2026-01-22T010757.json" = Some (FJson (DTranscript t))
    /\ length (messages t) = 4%nat
    /\ map role (messages t) = [user; assistant; user; assistant]
    /\ prompt_tokens (usage t) = 10
    /\ completion_tokens (usage t) = 6
    /\ total_tokens (usage t) = 16
    /\ last_updated_at t = "2026-01-22T01:08:03.000250".
Proof.
  destruct (session_accumulates false Sample.loads (Sample.turn "hello")
              [Sample.turn "again"] Sample.empty)
    as (fs' & t & Hrun & Hfile & _ & _ & Hlen & Hroles & Hp & Hc & Ht & _ & Hupd).
  { split; [now apply sample_answers|].
    split; [now apply sample_answers | exact I]. }
  exists fs', t. repeat split; assumption.
Defined.


(** The pointer names a file that is gone: the run is the run with --new. *)
Lemma stale_pointer_falls_back_witness :
  chat false Sample.loads Sample.answering (Some "hello") false None Sample.stale
  = chat false Sample.loads Sample.answering (Some "hello") true None Sample.stale
  /\ resolve_session Sample.answering false Sample.stored
     = (Sample.stored, Ok (DTranscript Sample.hello, Some "2026-01-22T010757.json")).
Proof.
  split.
  - apply (stale_pointer_falls_back false Sample.loads Sample.answering
             (Some "hello") None Sample.stale eq_refl).
    right. right. exists "gone.json". split; vm_compute; reflexivity.
  - apply (proj2 (stale_pointer_falls_back false Sample.loads Sample.answering
                    (Some "again") None Sample.stored eq_refl)
             "2026-01-22T010757.json" Sample.hello "again" "hi there"
             (usage_add Sample.usage538 Sample.usage538));
      vm_compute; reflexivity.
Defined.

(** The sample stream and the sample body give the same store. *)
Lemma streaming_matches_batched_witness :
  chat true Sample.loads Sample.answering (Some "hello") true None Sample.empty
  = chat false Sample.loads Sample.answering (Some "hello") true None Sample.empty.
Proof.
  apply (proj2 (proj2 (streaming_matches_batched Sample.loads Sample.answering
                         Sample.answering Sample.response Sample.response
                         Sample.body "hi there" (usage_json Sample.usage538)
                         [ {| role := user; content := "hello" |} ]
                         eq_refl eq_refl sample_well_formed
                         ltac:(vm_compute; reflexivity)
                         ltac:(vm_compute; reflexivity)
                         eq_refl eq_refl eq_refl eq_refl)
                  (create_chat_history Sample.created) "hello" eq_refl)
           (Some "hello") true None Sample.empty None
           eq_refl eq_refl eq_refl eq_refl eq_refl).
Defined.

(** The sample stream: fragments in order, the malformed chunk and the
    line after the sentinel without effect. *)
Lemma stream_concatenates_until_done_witness :
  handle_stream Sample.loads Sample.response
  = Ok (normalized "hi there" (usage_json Sample.usage538))
  /\ handle_stream Sample.loads
       {| resp_json := Ok Sample.body;
          resp_lines := [ "data: " +:+ Sample.delta_text_of "hi " ]
                        ++ "data: [DONE]" :: [ "data: " +:+ Sample.delta_text_of "late" ];
          resp_broken := Some "connection reset" |}
     = handle_stream Sample.loads
         {| resp_json := Ok Sample.body;
            resp_lines := [ "data: " +:+ Sample.delta_text_of "hi " ];
            resp_broken := None |}
  /\ handle_stream Sample.loads
       {| resp_json := Ok Sample.body;
          resp_lines := [ "data: " +:+ Sample.delta_text_of "hi " ]
                        ++ ("data: " +:+ "{bad")
                           :: [ "data: " +:+ Sample.delta_text_of "there" ];
          resp_broken := None |}
     = handle_stream Sample.loads
         {| resp_json := Ok Sample.body;
            resp_lines := [ "data: " +:+ Sample.delta_text_of "hi " ]
                          ++ [ "data: " +:+ Sample.delta_text_of "there" ];
            resp_broken := None |}.
Proof.
  destruct (stream_concatenates_until_done Sample.loads) as (Hcat & Hdone & Hbad).
  split; [|split].
  - rewrite (Hcat Sample.response eq_refl sample_well_formed).
    vm_compute. reflexivity.
  - apply Hdone.
  - apply Hbad; [vm_compute; reflexivity | discriminate].
Defined.

(** A new conversation is saved under the name derived from its creation
    time. *)
Lemma saved_under_derived_or_existing_name_witness :
  chat false Sample.loads Sample.answering (Some "hello") true None Sample.empty
  = (persisted Sample.empty "2026-01-22T010757.json" Sample.hello, Ok tt).
Proof.
  apply (saved_under_derived_or_existing_name false Sample.loads Sample.answering
           (Some "hello") true None Sample.empty
           (create_chat_history Sample.created) None "hello" "hi there"
           Sample.usage538 eq_refl eq_refl eq_refl eq_refl).
Defined.

Lemma sample_blank : blank (" " +:+ nl).
Proof.
  apply (blank_cons " " nl); [unfold Text.whitespace; simpl; tauto|].
  apply (blank_cons nl ""); [unfold Text.whitespace; simpl; tauto | constructor].
Defined.

Lemma sample_margin : made_of Text.whitespace (" " +:+ nl).
Proof.
  apply (made_of_cons _ " " nl); [unfold Text.whitespace; simpl; tauto|].
  apply (made_of_cons _ nl ""); [unfold Text.whitespace; simpl; tauto | constructor].
Defined.

Lemma sample_line_end : made_of Text.whitespace nl.
Proof.
  apply (made_of_cons _ nl ""); [unfold Text.whitespace; simpl; tauto | constructor].
Defined.

(** No prompt on the command line: a blank input file is rejected, and a
    note between a blank line and a line end is taken without them. *)
Lemma empty_prompt_rejected_witness :
  chat false Sample.loads Sample.answering None true None Sample.blank_input
  = (Sample.blank_input,
     Raise (ValueError
              "No prompt provided. Either pass a prompt or create input.md file."))
  /\ acquire_prompt None Demo.with_note = (Demo.with_note, Ok "how are you").
Proof.
  split.
  - apply (proj2 (proj2 (empty_prompt_rejected false Sample.loads Sample.answering
                           None true None Sample.blank_input eq_refl eq_refl))
             (or_intror (ex_intro _ (" " +:+ nl) (conj eq_refl sample_blank)))
             (DTranscript (create_chat_history Sample.created)) None eq_refl).
  - apply (proj1 (proj2 (empty_prompt_rejected false Sample.loads Sample.answering
                           None false None Demo.with_note eq_refl eq_refl))
             (" " +:+ nl) "how are you" nl eq_refl sample_margin sample_line_end
             (fun tail => eq_refl) (fun tail => eq_refl)).
Defined.

(** The usage of the sample stream is that of its closing chunk; a stream
    without usage gives zeros. *)
Lemma stream_usage_is_last_reported_witness :
  (exists response,
     handle_stream Sample.loads Sample.response = Ok response
     /\ Py.getitem response "usage" = Ok (usage_json Sample.usage538))
  /\ (exists response,
        handle_stream Sample.loads Sample.response_without_usage = Ok response
        /\ Py.getitem response "usage" = Ok (usage_json no_usage)).
Proof.
  split.
  - destruct (stream_usage_is_last_reported Sample.loads Sample.response
                eq_refl sample_well_formed) as (response & Hrun & Hlast & _).
    exists response. split; [exact Hrun|].
    apply (Hlast [Sample.delta_chunk "hi "; Sample.delta_chunk "there"]
             Sample.usage_chunk []);
      [exact sample_chunks | reflexivity | constructor].
  - destruct (stream_usage_is_last_reported Sample.loads
                Sample.response_without_usage eq_refl
                ltac:(repeat (constructor; [eexists; reflexivity|]); constructor))
      as (response & Hrun & _ & Hnone).
    exists response. split; [exact Hrun|].
    apply Hnone. repeat (constructor; [reflexivity|]). constructor.
Defined.

(* ================================================================== *)
(** ** The entry point *)
(* ================================================================== *)

Section EntryPoint.

Variable STREAMING : bool.
Variable json_loads : string -> option json.

#[local] Abbreviation chat := (chat STREAMING json_loads).
#[local] Abbreviation main := (main STREAMING json_loads).

(** [chat] reads its environment through the clock and through [post] at
    the payloads it sends. *)
Lemma chat_env_ext (E1 E2 : Env) (prompt : option string) (new_chat : bool)
    (load_file : option string) (fs : FS) :
  (forall payload, post E1 payload = post E2 payload) ->
  now_create E1 = now_create E2 ->
  now_update E1 = now_update E2 ->
  chat E1 prompt new_chat load_file fs = chat E2 prompt new_chat load_file fs.
Proof.
  intros Hpost Hc Hu.
  destruct (Text.nonempty load_file) as [f|] eqn:Hload.
  - apply nonempty_Some in Hload as [-> Hf].
    now rewrite !(chat_load STREAMING json_loads _ prompt new_chat f fs Hf).
  - rewrite !(chat_unfold STREAMING json_loads _ prompt new_chat load_file fs Hload).
    rewrite (resolve_session_clock E1 E2 new_chat fs Hc).
    destruct (snd (resolve_session E2 new_chat fs)) as [[[t|a] filename]|e];
      try reflexivity.
    destruct (snd (acquire_prompt prompt fs)) as [p|e]; [|reflexivity].
    assert (Hex : exchange STREAMING json_loads E1 t p
                  = exchange STREAMING json_loads E2 t p).
    { unfold exchange, send_message. now rewrite Hpost. }
    now rewrite Hex, Hu.
Qed.

(** X1.  Without a credential, neither from [--api-key] nor from the
    environment (absent or empty), [main] ends with exit code 1 on the
    error "API_KEY not found..." and the file store is untouched, whatever
    the other arguments: not even [--load] moves the pointer. *)
Theorem missing_credential_aborts (args : Args) (W : World) (fs : FS) :
  Text.nonempty (arg_api_key args) = None ->
  Text.nonempty (env_API_KEY W) = None ->
  main args W fs
  = (fs, Exit1 (ValueError
                  "API_KEY not found. Set it in .env file or pass it to the script.")).
Proof.
  intros Harg Henv. unfold main, Chat_init.
  rewrite Harg, Henv. now destruct (main_arguments args).
Qed.

(** The client [Chat.__init__] builds from a key given on the command
    line. *)
Lemma Chat_init_explicit (API_KEY api_key : option string) (k : string) :
  Text.nonempty api_key = Some k ->
  Chat_init API_KEY api_key
  = Ok {| api_key := k;
          headers := [("Authorization", "Bearer " +:+ k);
                      ("Content-Type", "application/json")] |}.
Proof.
  intros Hk. unfold Chat_init. rewrite Hk.
  apply nonempty_Some in Hk as [_ Hk]. now rewrite (nonempty_truthy k Hk).
Qed.

(** X2.  A non-empty [--api-key] decides the run: whatever the environment
    variable holds, and whatever the API would answer to other headers, the
    run is the one whose requests carry [Authorization: Bearer <key>]. *)
Theorem explicit_key_overrides_environment (args : Args) (W1 W2 : World)
    (fs : FS) (k : string) :
  Text.nonempty (arg_api_key args) = Some k ->
  (forall payload,
     http W1 [("Authorization", "Bearer " +:+ k);
              ("Content-Type", "application/json")] payload
     = http W2 [("Authorization", "Bearer " +:+ k);
                ("Content-Type", "application/json")] payload) ->
  clock_create W1 = clock_create W2 ->
  clock_update W1 = clock_update W2 ->
  main args W1 fs = main args W2 fs.
Proof.
  intros Hk Hhttp Hc Hu. unfold main.
  rewrite !(Chat_init_explicit _ _ k Hk).
  destruct (main_arguments args) as [new_chat prompt].
  set (c := {| api_key := k;
               headers := [("Authorization", "Bearer " +:+ k);
                           ("Content-Type", "application/json")] |}).
  now rewrite (chat_env_ext (env_of W1 c) (env_of W2 c) prompt new_chat
                 (arg_load args) fs Hhttp Hc Hu).
Qed.

(** X3.  The three branches of the argument handling of [main] come to the
    same: for the boolean [store_true] gives [args.new], [chat] is called
    with [new_chat = args.new] and the prompt as parsed, given or not. *)
Theorem main_flags_are_plain (prompt load key : option string) (new : bool) :
  main_arguments {| arg_prompt := prompt; arg_new := NewFlag new;
                    arg_load := load; arg_api_key := key |}
  = (new, prompt).
Proof.
  unfold main_arguments. simpl.
  destruct new; [|reflexivity].
  now destruct (Text.nonempty prompt).
Qed.

End EntryPoint.

Lemma missing_credential_aborts_witness :
  main false Sample.loads
    (Demo.args None false (Some "2026-01-22T010757.json") (Some ""))
    (Demo.world None) Sample.stored
  = (Sample.stored,
     Exit1 (ValueError
              "API_KEY not found. Set it in .env file or pass it to the script.")).
Proof.
  apply (missing_credential_aborts false Sample.loads
           (Demo.args None false (Some "2026-01-22T010757.json") (Some ""))
           (Demo.world None) Sample.stored eq_refl eq_refl).
Defined.

Lemma explicit_key_overrides_environment_witness :
  main false Sample.loads (Demo.args (Some "hello") true None (Some "sk-1"))
    (Demo.world None) Sample.empty
  = main false Sample.loads (Demo.args (Some "hello") true None (Some "sk-1"))
      (Demo.world (Some "sk-2")) Sample.empty.
Proof.
  apply (explicit_key_overrides_environment false Sample.loads
           (Demo.args (Some "hello") true None (Some "sk-1"))
           (Demo.world None) (Demo.world (Some "sk-2")) Sample.empty "sk-1"
           eq_refl (fun _ => eq_refl) eq_refl eq_refl).
Defined.

(* ================================================================== *)
(** ** Runs: what is written, and when *)
(* ================================================================== *)

Section Runs.

Variable STREAMING : bool.
Variable json_loads : string -> option json.

#[local] Abbreviation chat := (chat STREAMING json_loads).
#[local] Abbreviation exchange := (exchange STREAMING json_loads).
#[local] Abbreviation chat_unfold := (chat_unfold STREAMING json_loads).
#[local] Abbreviation chat_load := (chat_load STREAMING json_loads).


(** Session resolution when the pointer names a JSON file that is not a
    transcript. *)
Lemma resolve_non_transcript (E : Env) (fs : FS) (f : string) (a b : option string) :
  history fs !! ACTIVE_CHAT_FILE = Some (FJson (DPointer (Some f))) ->
  Text.truthy f = true ->
  history fs !! f = Some (FJson (DPointer b)) ->
  resolve_session E false fs = (fs, Ok (DPointer b, Some f)).
Proof.
  intros Hp Hf Hb.
  unfold resolve_session, get_active_chat, except_FileNotFoundError,
    load_chat_history, mbind, M_bind, mret, M_ret.
  rewrite Hp. simpl. now rewrite Hf, Hb.
Qed.

(** X5.  [--load] of a JSON file of the pointer's form (an object without
    the keys of a transcript) fails on the missing ['created_at'], but only
    after the pointer was moved to that file and the output file cut down to
    its title.  From then on every run
    without [--new] that has a prompt fails on the missing ['messages'],
    whatever the API would answer, and changes nothing. *)
Theorem load_of_non_transcript_blocks_the_session (E1 E2 : Env)
    (prompt1 : option string) (new1 : bool) (f p : string) (a : option string)
    (fs : FS) :
  Text.truthy f = true ->
  history fs !! f = Some (FJson (DPointer a)) ->
  Text.truthy p = true ->
  exists fs1,
    chat E1 prompt1 new1 (Some f) fs = (fs1, Raise (KeyError "created_at"))
    /\ history fs1 !! ACTIVE_CHAT_FILE = Some (FJson (DPointer (Some f)))
    /\ output_file fs1 = Some ("# Chat History" +:+ nl +:+ nl)
    /\ chat E2 (Some p) false None fs1 = (fs1, Raise (KeyError "messages")).
Proof.
  intros Hf Ha Hp. rewrite (chat_load E1 prompt1 new1 f fs Hf), Ha.
  eexists. split; [reflexivity|]. simpl.
  split; [apply lookup_insert_eq|]. split; [reflexivity|].
  match goal with |- chat _ _ _ _ ?s = _ => set (fs1 := s) end.
  assert (Hptr : history fs1 !! ACTIVE_CHAT_FILE = Some (FJson (DPointer (Some f))))
    by apply lookup_insert_eq.
  assert (Hfile : exists b, history fs1 !! f = Some (FJson (DPointer b))).
  { destruct (decide (ACTIVE_CHAT_FILE = f)) as [<-|Hne].
    - eexists. exact Hptr.
    - exists a. subst fs1. simpl. now rewrite lookup_insert_ne. }
  destruct Hfile as [b Hfile].
  rewrite (chat_unfold E2 (Some p) false None fs1 eq_refl).
  rewrite (resolve_non_transcript E2 fs1 f a b Hptr Hf Hfile). simpl.
  now rewrite (acquire_prompt_given p fs1 Hp).
Qed.

(** X6.  Only a missing file makes a run fall back to a fresh transcript:
    a pointer file that is not JSON, or a pointer to a file that is not
    JSON, makes the run without [--new] fail with [JSONDecodeError], and so
    does [--load] of such a file; the store is unchanged each time. *)
Theorem corrupt_json_is_fatal (E : Env) (prompt : option string)
    (new_chat : bool) (fs : FS) :
  (history fs !! ACTIVE_CHAT_FILE = Some FGarbage ->
   chat E prompt false None fs = (fs, Raise JSONDecodeError))
  /\ (forall f,
        history fs !! ACTIVE_CHAT_FILE = Some (FJson (DPointer (Some f))) ->
        Text.truthy f = true ->
        history fs !! f = Some FGarbage ->
        chat E prompt false None fs = (fs, Raise JSONDecodeError))
  /\ (forall f,
        Text.truthy f = true ->
        history fs !! f = Some FGarbage ->
        chat E prompt new_chat (Some f) fs = (fs, Raise JSONDecodeError)).
Proof.
  split; [|split].
  - intros Hp. rewrite (chat_unfold E prompt false None fs eq_refl).
    unfold resolve_session, get_active_chat, mbind, M_bind. now rewrite Hp.
  - intros f Hp Hf Hg. rewrite (chat_unfold E prompt false None fs eq_refl).
    unfold resolve_session, get_active_chat, except_FileNotFoundError,
      load_chat_history, mbind, M_bind. rewrite Hp. simpl. now rewrite Hf, Hg.
  - intros f Hf Hg. now rewrite (chat_load E prompt new_chat f fs Hf), Hg.
Qed.

(** The outcome of a run with [--new] is that of the exchange on a fresh
    transcript. *)
Lemma chat_new_outcome (E : Env) (prompt : option string)
    (load_file : option string) (fs : FS) :
  Text.nonempty load_file = None ->
  snd (chat E prompt true load_file fs)
  = match snd (acquire_prompt prompt fs) with
    | Raise e => Raise e
    | Ok p =>
        match exchange E (create_chat_history (now_create E)) p with
        | Ok _ => Ok tt
        | Raise e => Raise e
        end
    end.
Proof.
  intros Hload. rewrite (chat_unfold E prompt true load_file fs Hload). simpl.
  destruct (snd (acquire_prompt prompt fs)) as [p|e]; [|reflexivity].
  now destruct (exchange E (create_chat_history (now_create E)) p) as [[reply u]|e].
Qed.

(** X7.  A run with [--new] never reads the history directory: whether it
    succeeds, and with which error it fails, is the same in any two stores
    with the same input file, so [--new] gets out of any damaged state. *)
Theorem new_ignores_history (E : Env) (prompt : option string)
    (load_file : option string) (fs1 fs2 : FS) :
  Text.nonempty load_file = None ->
  input_file fs1 = input_file fs2 ->
  snd (chat E prompt true load_file fs1) = snd (chat E prompt true load_file fs2).
Proof.
  intros Hload Hin. rewrite !chat_new_outcome by exact Hload.
  unfold acquire_prompt. rewrite Hin.
  now destruct (Text.nonempty
                  match Text.nonempty prompt, input_file fs2 with
                  | None, Some text => Some (Text.strip text)
                  | _, _ => prompt
                  end).
Qed.

(** The name a resolved session is saved under is not empty. *)
Lemma saved_name_truthy (E : Env) (new_chat : bool) (fs : FS)
    (t : Transcript) (filename : option string) (p reply : string) (u : Usage)
    (now : datetime) :
  snd (resolve_session E new_chat fs) = Ok (DTranscript t, filename) ->
  Text.truthy (saved_as (extended t p reply u now) filename) = true.
Proof.
  intros [[-> _] | (f & -> & Hf & _)]%resolve_session_inv; simpl.
  - apply get_chat_filename_truthy.
  - exact Hf.
Qed.

(** X8.  After every successful run from a store whose pointer file is not
    a transcript, the three files agree: the pointer names an existing
    transcript file and the output file is the rendering of that very
    transcript. *)
Theorem successful_run_leaves_consistent_files (E : Env)
    (prompt : option string) (new_chat : bool) (load_file : option string)
    (fs fs' : FS) :
  pointer_shape fs ->
  chat E prompt new_chat load_file fs = (fs', Ok tt) ->
  exists name t, consistent fs' name t.
Proof.
  intros Hshape. destruct (Text.nonempty load_file) as [f|] eqn:Hload.
  - apply nonempty_Some in Hload as [-> Hf].
    rewrite (chat_load E prompt new_chat f fs Hf).
    destruct (history fs !! f) as [[[t|a]|]|] eqn:Hfile; try discriminate.
    intros [= <-]. exists f, t.
    assert (Hne : ACTIVE_CHAT_FILE <> f).
    { intros <-. exact (Hshape t Hfile). }
    unfold consistent, active_session, switched. simpl.
    rewrite lookup_insert_eq, lookup_insert_ne by exact Hne. now repeat split.
  - rewrite (chat_unfold E prompt new_chat load_file fs Hload).
    destruct (snd (resolve_session E new_chat fs)) as [[[t|a] filename]|e] eqn:Hres;
      try discriminate;
      (destruct (snd (acquire_prompt prompt fs)) as [p|e]; [|discriminate]);
      try discriminate.
    destruct (exchange E t p) as [[reply u]|e]; [|discriminate].
    simpl. intros [= <-].
    eexists _, _. split; [|reflexivity].
    apply persisted_active_session.
    + exact (saved_name_not_pointer E new_chat fs t filename p reply u _ Hres).
    + exact (saved_name_truthy E new_chat fs t filename p reply u _ Hres).
Qed.



(** Session resolution reads the history directory only. *)
Lemma resolve_session_input (E : Env) (new_chat : bool) (fs : FS)
    (text : option string) :
  snd (resolve_session E new_chat (with_input fs text))
  = snd (resolve_session E new_chat fs).
Proof.
  unfold resolve_session, get_active_chat, except_FileNotFoundError,
    load_chat_history, mbind, M_bind, mret, M_ret, with_input.
  destruct new_chat; [reflexivity|]. simpl.
  destruct (history fs !! ACTIVE_CHAT_FILE) as [[[t|a]|]|]; simpl; try reflexivity.
  destruct (Text.nonempty a) as [f|]; [|reflexivity].
  destruct (history fs !! f) as [[d|]|] eqn:Hf; simpl; rewrite ?Hf; reflexivity.
Qed.

(** X11.  With a non-empty prompt from the caller the input file is neither
    read nor written: the run does the same, and leaves the input file as
    it is, whatever the input file holds or whether it exists.  The prompt
    is sent as given, not stripped. *)
Theorem given_prompt_ignores_input_file (E : Env) (p : string)
    (new_chat : bool) (load_file : option string) (fs : FS)
    (text : option string) :
  Text.truthy p = true ->
  chat E (Some p) new_chat load_file (with_input fs text)
  = (with_input (fst (chat E (Some p) new_chat load_file fs)) text,
     snd (chat E (Some p) new_chat load_file fs))
  /\ snd (acquire_prompt (Some p) fs) = Ok p.
Proof.
  intros Hp. split; [|now rewrite (acquire_prompt_given p fs Hp)].
  destruct (Text.nonempty load_file) as [f|] eqn:Hload.
  - apply nonempty_Some in Hload as [-> Hf].
    rewrite !(chat_load E (Some p) new_chat f _ Hf). simpl.
    now destruct (history fs !! f) as [[[t|a]|]|].
  - rewrite !(chat_unfold E (Some p) new_chat load_file _ Hload).
    rewrite resolve_session_input.
    destruct (snd (resolve_session E new_chat fs)) as [[[t|a] filename]|e];
      try reflexivity;
      rewrite !(acquire_prompt_given p _ Hp); simpl; try reflexivity.
    now destruct (exchange E t p) as [[reply u]|e].
Qed.

(** X12.  A response the reply cannot be read from loses the exchange: with
    no ["choices"] the run fails with [KeyError], with an empty list of
    choices with [IndexError]; and when the reply was read but the response
    has no ["usage"], or its usage lacks the first counter, the run fails
    with [KeyError] all the same.  Nothing is saved in any of these cases:
    neither the prompt nor the reply reaches the transcript. *)
Theorem unreadable_response_loses_the_exchange (E : Env)
    (prompt : option string) (new_chat : bool) (load_file : option string)
    (fs : FS) (t : Transcript) (filename : option string) (p : string)
    (kv : list (string * json)) :
  Text.nonempty load_file = None ->
  snd (resolve_session E new_chat fs) = Ok (DTranscript t, filename) ->
  snd (acquire_prompt prompt fs) = Ok p ->
  send_message json_loads E
    (messages t ++ [ {| role := user; content := p |} ]) STREAMING
  = Ok (JObj kv) ->
  (Py.assoc "choices" kv = None ->
   chat E prompt new_chat load_file fs = (fs, Raise (KeyError "choices")))
  /\ (Py.assoc "choices" kv = Some (JArr []) ->
      chat E prompt new_chat load_file fs = (fs, Raise IndexError))
  /\ (forall reply,
        assistant_content (JObj kv) = Ok reply ->
        (Py.assoc "usage" kv = None ->
         chat E prompt new_chat load_file fs = (fs, Raise (KeyError "usage")))
        /\ (forall ukv,
              Py.assoc "usage" kv = Some (JObj ukv) ->
              Py.assoc "prompt_tokens" ukv = None ->
              chat E prompt new_chat load_file fs
              = (fs, Raise (KeyError "prompt_tokens")))).
Proof.
  intros Hload Hres Hp Hsend.
  rewrite (chat_exchange STREAMING json_loads E prompt new_chat load_file fs
             t filename p Hload Hres Hp).
  unfold exchange. rewrite Hsend. simpl.
  split; [|split].
  - intros Hc. unfold assistant_content, Py.getitem. now rewrite Hc.
  - intros Hc. unfold assistant_content, Py.getitem. now rewrite Hc.
  - intros reply Hreply. rewrite Hreply. simpl. split.
    + intros Hu. unfold Py.getitem. now rewrite Hu.
    + intros ukv Hu Hpt. unfold add_usage, Py.getitem. rewrite Hu. simpl.
      now rewrite Hpt.
Qed.

End Runs.

(* ================================================================== *)
(** ** Streams that fail *)
(* ================================================================== *)

Section StreamFailures.

Variable json_loads : string -> option json.

#[local] Abbreviation handle_line := (handle_line json_loads).
#[local] Abbreviation stream_loop := (stream_loop json_loads).
#[local] Abbreviation received := (received json_loads).

(** Lines with well-formed chunks and no sentinel are all consumed. *)
Lemma stream_loop_consumes (pre rest : list string) (broken : option string) :
  Forall (fun line => sentinel line = false) pre ->
  Forall well_formed (received pre) ->
  forall st, exists st',
    stream_loop (pre ++ rest) broken st = stream_loop rest broken st'.
Proof.
  induction pre as [|line pre IH]; intros Hs Hwf st.
  - exists st. reflexivity.
  - apply Forall_cons in Hs as [Hline Hs].
    rewrite (received_cons json_loads) in Hwf.
    rewrite <- app_comm_cons, (stream_loop_cons json_loads),
      (handle_line_cases json_loads).
    unfold sentinel in Hline.
    destruct (Text.startswith "data: " line); [|now apply IH].
    rewrite andb_true_l in Hline. rewrite Hline in Hwf. rewrite Hline.
    destruct (json_loads (Text.drop 6 line)) as [chunk|]; [|now apply IH].
    apply Forall_cons in Hwf as [[frag Hfrag] Hwf].
    destruct st as [full u].
    rewrite (handle_chunk_well_formed chunk frag full u Hfrag). simpl.
    now apply IH.
Qed.

(** X13.  A stream that breaks before the sentinel is a transport failure,
    however much of the reply had arrived: the run ends with "API request
    failed: ..." and the store is unchanged.  (A break after the sentinel
    is never seen.) *)
Theorem interrupted_stream_is_transport_failure (E : Env)
    (prompt : option string) (new_chat : bool) (load_file : option string)
    (fs : FS) (t : Transcript) (filename : option string) (p e : string)
    (r : Response) :
  Text.nonempty load_file = None ->
  snd (resolve_session E new_chat fs) = Ok (DTranscript t, filename) ->
  snd (acquire_prompt prompt fs) = Ok p ->
  post E (payload_of (messages t ++ [ {| role := user; content := p |} ]) true)
    = Responded r ->
  resp_broken r = Some e ->
  Forall (fun line => sentinel line = false) (resp_lines r) ->
  Forall well_formed (received (resp_lines r)) ->
  chat true json_loads E prompt new_chat load_file fs
  = (fs, Raise (RuntimeError ("API request failed: " +:+ e))).
Proof.
  intros Hload Hres Hp Hpost Hbroken Hs Hwf.
  rewrite (chat_exchange true json_loads E prompt new_chat load_file fs
             t filename p Hload Hres Hp).
  unfold exchange, send_message.
  fold (payload_of (messages t ++ [ {| role := user; content := p |} ]) true).
  rewrite Hpost. unfold handle_stream. rewrite Hbroken.
  destruct (stream_loop_consumes (resp_lines r) [] (Some e) Hs Hwf ("", zero_usage))
    as [st' Hloop].
  rewrite app_nil_r in Hloop. now rewrite Hloop.
Qed.

Lemma handle_line_scalar (d : string) (chunk : json) (st : stream_state) :
  json_loads d = Some chunk -> d <> "[DONE]" -> scalar chunk ->
  handle_line ("data: " +:+ d) st = Raise TypeError.
Proof.
  intros Hd Hne Hsc. rewrite (handle_line_cases json_loads).
  change (Text.startswith "data: " ("data: " +:+ d)) with true.
  change (Text.drop 6 ("data: " +:+ d)) with d.
  apply String.eqb_neq in Hne. rewrite Hne, Hd.
  destruct st as [full u].
  destruct chunk as [|b|n|s|l|kv]; try destruct Hsc; reflexivity.
Qed.

(** X14.  A chunk that parses but is [null], a boolean or a number is not
    skipped like a malformed one: the handler raises [TypeError], which
    [send_message] does not turn into "API request failed"; the run fails
    with [TypeError], the fragments received before are lost and the store
    is unchanged. *)
Theorem scalar_chunk_is_fatal (E : Env) (prompt : option string)
    (new_chat : bool) (load_file : option string) (fs : FS)
    (t : Transcript) (filename : option string) (p d : string)
    (r : Response) (pre rest : list string) (chunk : json) :
  Text.nonempty load_file = None ->
  snd (resolve_session E new_chat fs) = Ok (DTranscript t, filename) ->
  snd (acquire_prompt prompt fs) = Ok p ->
  post E (payload_of (messages t ++ [ {| role := user; content := p |} ]) true)
    = Responded r ->
  resp_lines r = pre ++ ("data: " +:+ d) :: rest ->
  Forall (fun line => sentinel line = false) pre ->
  Forall well_formed (received pre) ->
  json_loads d = Some chunk -> d <> "[DONE]" -> scalar chunk ->
  send_message json_loads E
    (messages t ++ [ {| role := user; content := p |} ]) true = Raise TypeError
  /\ chat true json_loads E prompt new_chat load_file fs = (fs, Raise TypeError).
Proof.
  intros Hload Hres Hp Hpost Hlines Hs Hwf Hd Hne Hsc.
  assert (Hsend : send_message json_loads E
                    (messages t ++ [ {| role := user; content := p |} ]) true
                  = Raise TypeError).
  { unfold send_message.
    fold (payload_of (messages t ++ [ {| role := user; content := p |} ]) true).
    rewrite Hpost. unfold handle_stream. rewrite Hlines.
    destruct (stream_loop_consumes pre (("data: " +:+ d) :: rest)
                (resp_broken r) Hs Hwf ("", zero_usage)) as [st' Hloop].
    rewrite Hloop, (stream_loop_cons json_loads).
    now rewrite (handle_line_scalar d chunk st' Hd Hne Hsc). }
  split; [exact Hsend|].
  rewrite (chat_exchange true json_loads E prompt new_chat load_file fs
             t filename p Hload Hres Hp).
  unfold exchange. now rewrite Hsend.
Qed.

End StreamFailures.

(* ================================================================== *)
(** ** The names of fresh transcripts *)
(* ================================================================== *)

(** X15.  Conversations created at different clock readings are saved under
    different names: on the readings a [datetime] can take, two readings
    that differ, even by a microsecond, give different file names.  So a
    run with [--new] overwrites no transcript created at another time. *)
Theorem fresh_names_distinct (d1 d2 : datetime) :
  valid_datetime d1 -> valid_datetime d2 ->
  d1 <> d2 ->
  get_chat_filename (isoformat d1) <> get_chat_filename (isoformat d2).
Proof.
  intros H1 H2 Hne Heq. apply Hne. now apply fresh_name_inj.
Qed.

Lemma fresh_names_distinct_witness :
  get_chat_filename (isoformat Sample.created)
  <> get_chat_filename (isoformat Sample.updated).
Proof.
  apply (fresh_names_distinct Sample.created Sample.updated);
    [repeat split; reflexivity | repeat split; reflexivity | discriminate].
Defined.

(* ================================================================== *)
(** ** The prompt read from the input file *)
(* ================================================================== *)

(** X16.  With no prompt from the caller, the prompt is the text of the
    input file without the whitespace around it, inner whitespace kept:
    for a file made of whitespace, a text that begins and ends with other
    characters, and whitespace again, the prompt is that text. *)
Theorem prompt_is_the_stripped_input (prompt : option string) (fs : FS)
    (a core b : string) :
  Text.nonempty prompt = None ->
  input_file fs = Some (a +:+ core +:+ b) ->
  made_of Text.whitespace a -> made_of Text.whitespace b ->
  clean_start core -> clean_end core ->
  acquire_prompt prompt fs = (fs, Ok core).
Proof.
  intros Hp Hin Ha Hb Hstart Hend. unfold acquire_prompt.
  rewrite Hp, Hin, (strip_core a core b Ha Hb Hstart Hend).
  now rewrite (nonempty_truthy core (clean_start_truthy core Hstart)).
Qed.

(* ================================================================== *)
(** ** The properties above on sample runs *)
(* ================================================================== *)


(** Loading a settings file instead of a transcript. *)
Lemma load_of_non_transcript_blocks_the_session_witness :
  exists fs1,
    chat false Sample.loads Sample.answering None false (Some "settings.json")
      Demo.misdirected
    = (fs1, Raise (KeyError "created_at"))
    /\ history fs1 !! ACTIVE_CHAT_FILE = Some (FJson (DPointer (Some "settings.json")))
    /\ output_file fs1 = Some ("# Chat History" +:+ nl +:+ nl)
    /\ chat false Sample.loads Sample.answering (Some "hello") false None fs1
       = (fs1, Raise (KeyError "messages")).
Proof.
  apply (load_of_non_transcript_blocks_the_session false Sample.loads
           Sample.answering Sample.answering None false "settings.json" "hello"
           None Demo.misdirected eq_refl);
    vm_compute; reflexivity.
Defined.

(** A pointer file that is not JSON, and a pointer to such a file. *)
Lemma corrupt_json_is_fatal_witness :
  chat false Sample.loads Sample.answering (Some "hello") false None Demo.garbled
  = (Demo.garbled, Raise JSONDecodeError)
  /\ chat false Sample.loads Sample.answering (Some "hello") false None
       Demo.garbled_target
     = (Demo.garbled_target, Raise JSONDecodeError).
Proof.
  split.
  - apply (proj1 (corrupt_json_is_fatal false Sample.loads Sample.answering
                    (Some "hello") false Demo.garbled)).
    vm_compute. reflexivity.
  - apply (proj1 (proj2 (corrupt_json_is_fatal false Sample.loads Sample.answering
                           (Some "hello") false Demo.garbled_target))
             "notes.json");
      vm_compute; reflexivity.
Defined.

(** [--new] in the damaged store does what it does in the sample store. *)
Lemma new_ignores_history_witness :
  snd (chat false Sample.loads Sample.answering (Some "hello") true None Demo.garbled)
  = snd (chat false Sample.loads Sample.answering (Some "hello") true None
           Sample.stored).
Proof.
  apply (new_ignores_history false Sample.loads Sample.answering (Some "hello")
           None Demo.garbled Sample.stored eq_refl eq_refl).
Defined.

(** The sample store after one more exchange. *)
Lemma successful_run_leaves_consistent_files_witness :
  exists name t,
    consistent
      (fst (chat false Sample.loads Sample.answering (Some "again") false None
              Sample.stored))
      name t.
Proof.
  apply (successful_run_leaves_consistent_files false Sample.loads
           Sample.answering (Some "again") false None Sample.stored _
           sample_pointer_shape).
  vm_compute. reflexivity.
Defined.




(** The prompt of the command line wins over the note in the input file. *)
Lemma given_prompt_ignores_input_file_witness :
  chat false Sample.loads Sample.answering (Some "again") false None Demo.with_note
  = (with_input
       (fst (chat false Sample.loads Sample.answering (Some "again") false None
               Sample.stored))
       (Some (" " +:+ nl +:+ "how are you" +:+ nl)),
     snd (chat false Sample.loads Sample.answering (Some "again") false None
            Sample.stored)).
Proof.
  apply (proj1 (given_prompt_ignores_input_file false Sample.loads Sample.answering
                  "again" false None Sample.stored
                  (Some (" " +:+ nl +:+ "how are you" +:+ nl)) eq_refl)).
Defined.

(** A body with the reply and no usage: nothing is saved. *)
Lemma unreadable_response_loses_the_exchange_witness :
  chat false Sample.loads (Demo.answering_with Demo.without_usage) (Some "hello")
    true None Sample.empty
  = (Sample.empty, Raise (KeyError "usage")).
Proof.
  apply (proj1 (proj2 (proj2 (unreadable_response_loses_the_exchange false
                                Sample.loads (Demo.answering_with Demo.without_usage)
                                (Some "hello") true None Sample.empty
                                (create_chat_history Sample.created) None "hello"
                                Demo.reply_only eq_refl eq_refl eq_refl eq_refl))
                  "hi there" eq_refl)).
  reflexivity.
Defined.

(** The stream breaks after "hi ": the run fails as a transport failure. *)
Lemma interrupted_stream_is_transport_failure_witness :
  chat true Sample.loads (Demo.answering_with Demo.interrupted) (Some "hello")
    true None Sample.empty
  = (Sample.empty,
     Raise (RuntimeError
              ("API request failed: " +:+ "Connection broken: IncompleteRead"))).
Proof.
  apply (interrupted_stream_is_transport_failure Sample.loads
           (Demo.answering_with Demo.interrupted) (Some "hello") true None
           Sample.empty (create_chat_history Sample.created) None "hello"
           "Connection broken: IncompleteRead" Demo.interrupted
           eq_refl eq_refl eq_refl eq_refl eq_refl).
  - repeat constructor.
  - vm_compute. repeat (constructor; [eexists; reflexivity|]). constructor.
Defined.

(** A [null] chunk after "hi ". *)
Lemma scalar_chunk_is_fatal_witness :
  send_message Demo.loads (Demo.answering_with Demo.with_null)
    (messages (create_chat_history Sample.created)
     ++ [ {| role := user; content := "hello" |} ]) true
  = Raise TypeError
  /\ chat true Demo.loads (Demo.answering_with Demo.with_null) (Some "hello")
       true None Sample.empty
     = (Sample.empty, Raise TypeError).
Proof.
  apply (scalar_chunk_is_fatal Demo.loads (Demo.answering_with Demo.with_null)
           (Some "hello") true None Sample.empty
           (create_chat_history Sample.created) None "hello" "null" Demo.with_null
           [ "data: " +:+ Sample.delta_text_of "hi " ] [ "data: [DONE]" ] JNull
           eq_refl eq_refl eq_refl eq_refl eq_refl).
  - repeat constructor.
  - vm_compute. repeat (constructor; [eexists; reflexivity|]). constructor.
  - reflexivity.
  - discriminate.
  - exact I.
Defined.

(** The note in the input file, without the blank line before it and the
    line end after it. *)
Lemma prompt_is_the_stripped_input_witness :
  acquire_prompt None Demo.with_note = (Demo.with_note, Ok "how are you").
Proof.
  apply (prompt_is_the_stripped_input None Demo.with_note (" " +:+ nl)
           "how are you" nl eq_refl eq_refl sample_margin sample_line_end).
  - intros tail. reflexivity.
  - intros tail. reflexivity.
Defined.
